(** * Cached analysis client of [yandex_analyzer.py]

    A shallow embedding of [YandexGPTAnalyzer]: the response cache, the
    remote call with its rate-limit handling, the JSON extraction and the
    two fallback constructors, followed by the properties of the
    client that the specification states. *)

From Stdlib Require Import ZArith NArith QArith Ascii String List Lia.
From Stdlib Require Import Qabs Qminmax Sorted.
From stdpp Require Import gmap strings list fin_maps pretty.

Open Scope Z_scope.
Open Scope string_scope.
Open Scope list_scope.

(** ** Python [str] values

    A Python [str] is a sequence of Unicode code points; slicing, [find],
    [in] and [len] all count code points, so a text is a list of code
    points and not a list of bytes. *)

Abbreviation pystr := (list N).

(** String literals of the source are written as Rocq string literals (whose
    bytes are the UTF-8 encoding of the literal) and decoded to code points. *)
Fixpoint utf8_decode (bs : list N) : pystr :=
  match bs with
  | [] => []
  | b0 :: r0 =>
      if (b0 <? 0x80)%N then b0 :: utf8_decode r0
      else
        match r0 with
        | [] => [b0]
        | b1 :: r1 =>
            if (b0 <? 0xE0)%N
            then ((b0 - 0xC0) * 64 + (b1 - 0x80))%N :: utf8_decode r1
            else
              match r1 with
              | [] => [b0; b1]
              | b2 :: r2 =>
                  if (b0 <? 0xF0)%N
                  then ((b0 - 0xE0) * 4096 + (b1 - 0x80) * 64 + (b2 - 0x80))%N
                         :: utf8_decode r2
                  else
                    match r2 with
                    | [] => [b0; b1; b2]
                    | b3 :: r3 =>
                        ((b0 - 0xF0) * 262144 + (b1 - 0x80) * 4096
                         + (b2 - 0x80) * 64 + (b3 - 0x80))%N
                          :: utf8_decode r3
                    end
              end
        end
  end.

Definition py (s : string) : pystr :=
  utf8_decode (map N_of_ascii (list_ascii_of_string s)).

(** [str.encode()] with the default codec (UTF-8, strict): a surrogate code
    point cannot be encoded and raises [UnicodeEncodeError]. *)
Definition utf8_encode_cp (c : N) : option (list N) :=
  if (c <? 0x80)%N then Some [c]
  else if (c <? 0x800)%N then Some [0xC0 + c / 64; 0x80 + c mod 64]%N
  else if (0xD800 <=? c)%N && (c <=? 0xDFFF)%N then None
  else if (c <? 0x10000)%N
       then Some [0xE0 + c / 4096; 0x80 + (c / 64) mod 64; 0x80 + c mod 64]%N
  else if (c <? 0x110000)%N
       then Some [0xF0 + c / 262144; 0x80 + (c / 4096) mod 64;
                  0x80 + (c / 64) mod 64; 0x80 + c mod 64]%N
  else None.

Fixpoint encode (s : pystr) : option (list N) :=
  match s with
  | [] => Some []
  | c :: s' =>
      match utf8_encode_cp c, encode s' with
      | Some bs, Some rest => Some (bs ++ rest)
      | _, _ => None
      end
  end.

(** [hay.startswith(needle)] *)
Fixpoint starts_with (needle hay : pystr) : bool :=
  match needle, hay with
  | [], _ => true
  | _ :: _, [] => false
  | a :: needle', b :: hay' => (a =? b)%N && starts_with needle' hay'
  end.

(** [hay.find(needle)]: index of the first occurrence, [None] for -1. *)
Fixpoint find (needle hay : pystr) : option nat :=
  if starts_with needle hay then Some 0%nat
  else match hay with
       | [] => None
       | _ :: hay' => S <$> find needle hay'
       end.

(** [hay.rfind(needle)]: index of the last occurrence, [None] for -1. *)
Fixpoint rfind (needle hay : pystr) : option nat :=
  match hay with
  | [] => if starts_with needle [] then Some 0%nat else None
  | _ :: hay' =>
      match rfind needle hay' with
      | Some i => Some (S i)
      | None => if starts_with needle hay then Some 0%nat else None
      end
  end.

(** [needle in hay] *)
Definition contains (needle hay : pystr) : bool :=
  match find needle hay with Some _ => true | None => false end.

(** Truth value of a [str] or of a list: empty is false. *)
Definition truthy {A} (l : list A) : bool :=
  match l with [] => false | _ :: _ => true end.

(** ** Values

    The analysis results are plain dictionaries (the [AnalysisResult]
    dataclass is declared but never instantiated), built from literals or
    by [json.loads]. *)
#[warnings="-register-all"]
Inductive value : Type :=
| VNone
| VBool (b : bool)
| VInt (z : Z)
| VFloat (q : Q)
| VStr (s : pystr)
| VList (l : list value)
| VDict (d : gmap string value).

(** The fields of the [AnalysisResult] dataclass, in declaration order. *)
Definition AnalysisResult_fields : list string :=
  ["summary"; "sentiment"; "risk_level"; "affected_assets"; "market_impact";
   "short_term_action"; "confidence"; "analyzed_at"; "is_fallback"].

Definition has_key (k : string) (v : value) : bool :=
  match v with
  | VDict d => bool_decide (is_Some (d !! k))
  | _ => false
  end.

Definition get_key (k : string) (v : value) : option value :=
  match v with
  | VDict d => d !! k
  | _ => None
  end.

(** ** Time

    [datetime] values are instants counted in microseconds; a [timedelta] is a
    number of microseconds. *)
Definition timedelta_days (d : Z) : Z := d * 86400000000.
Definition seconds (n : Z) : Z := n * 1000000.

(** ** The analyzer object and its surroundings *)

(** One entry of [self.cache]: [{'timestamp': ..., 'data': ...}]. *)
Record cache_entry : Type := CacheEntry {
  timestamp : Z;
  data : value
}.

(** The attributes of a [YandexGPTAnalyzer] instance that the methods read or
    write ([None] credentials are possible since nothing checks them in
    [__init__]). *)
Record analyzer : Type := Analyzer {
  api_key : option pystr;
  folder_id : option pystr;
  cloud_id : option pystr;
  cache : gmap string cache_entry;
  request_count : nat;
  cache_enabled : bool
}.

(** What the methods touch outside the object: the clock read by
    [datetime.now()] and advanced by [time.sleep], the cache file
    [cache/yandex_gpt_cache.pkl] ([None] while it does not exist), and the log
    of the [time.sleep] calls made so far, in seconds, oldest first. *)
Record world : Type := World {
  now : Z;
  disk : option (gmap string cache_entry);
  slept : list Z
}.

Definition set_cache (c : gmap string cache_entry) (a : analyzer) : analyzer :=
  {| api_key := api_key a; folder_id := folder_id a; cloud_id := cloud_id a;
     cache := c; request_count := request_count a;
     cache_enabled := cache_enabled a |}.

Definition set_request_count (n : nat) (a : analyzer) : analyzer :=
  {| api_key := api_key a; folder_id := folder_id a; cloud_id := cloud_id a;
     cache := cache a; request_count := n;
     cache_enabled := cache_enabled a |}.

Definition set_cache_enabled (b : bool) (a : analyzer) : analyzer :=
  {| api_key := api_key a; folder_id := folder_id a; cloud_id := cloud_id a;
     cache := cache a; request_count := request_count a;
     cache_enabled := b |}.

(** [time.sleep(n)] *)
Definition sleep (n : Z) (w : world) : world :=
  {| now := now w + seconds n; disk := disk w; slept := slept w ++ [n] |}.

(** [pickle.dump(self.cache, f)] on the cache file. *)
Definition dump (c : gmap string cache_entry) (w : world) : world :=
  {| now := now w; disk := Some c; slept := slept w |}.

(** Time passing between two calls of the client. *)
Definition elapse (d : Z) (w : world) : world :=
  {| now := now w + d; disk := disk w; slept := slept w |}.

(** What [requests.post] does with one request: it raises, or it returns a
    response.  Of a response the client reads the status code and, when the
    status is 200, the text at
    [response.json()["result"]["alternatives"][0]["message"]["text"]];
    [ai_text] is [None] when the body has no text there. *)
Inductive reply : Type :=
| Exc_Timeout
| Exc_ConnectionError
| Exc_Other
| Response (status_code : Z) (ai_text : option pystr).

(** Exceptions that leave a method. *)
Inductive pyexc : Type :=
| UnicodeEncodeError.

(** Result of running a method: it returns a value, raises, or has not
    finished within the given number of nested calls. *)
Inductive outcome (A : Type) : Type :=
| Returned (r : A) (self : analyzer) (w : world)
| Raised (e : pyexc) (self : analyzer) (w : world)
| Unfinished.
Arguments Returned {A} r self w.
Arguments Raised {A} e self w.
Arguments Unfinished {A}.

Definition returned {A} (o : outcome A) : option A :=
  match o with Returned r _ _ => Some r | _ => None end.

Definition final_analyzer {A} (o : outcome A) : option analyzer :=
  match o with Returned _ a _ | Raised _ a _ => Some a | Unfinished => None end.

(** ** The word lists of the keyword heuristic *)

Definition positive_words : list pystr :=
  Eval cbv in map py ["рост"; "выше"; "прибыль"; "успех"; "рекорд"; "повышение"].
Definition negative_words : list pystr :=
  Eval cbv in map py ["падение"; "ниже"; "убыток"; "кризис"; "обвал"; "снижение"].
Definition risk_words : list pystr :=
  Eval cbv in map py ["война"; "санкции"; "кризис"; "дефолт"; "банкротство"].

(** [sum(1 for word in words if word in text)] *)
Definition count_present (words : list pystr) (text : pystr) : nat :=
  length (filter (fun word => contains word text = true) words).

Section Client.

(** *** Library functions the client calls

    They are parameters of the development: the Unicode case tables behind
    [str.lower], the MD5 digest, the ISO rendering of an instant, the JSON
    parser, and the remote endpoint. *)

(** Full lowercase mapping of one code point (one to three code points). *)
Variable to_lower_full : N -> pystr.
(** The context test [str.lower] applies to a capital sigma: is the sigma,
    given the text before it (nearest first) and after it, final in its
    word? *)
Variable final_sigma : pystr -> pystr -> bool.
(** [hashlib.md5(bs).hexdigest()] *)
Variable md5_hexdigest : list N -> string.
(** [t.isoformat()] *)
Variable isoformat : Z -> pystr.
(** [json.loads(s)]: [None] when it raises. *)
Variable json_loads : pystr -> option value.
(** The reply of [requests.post] to the [n]-th request this analyzer sends
    (the counter [request_count] numbers them from 1). *)
Variable remote : nat -> reply.

(** *** [str.lower()] *)

Definition lower_at (before : pystr) (c : N) (after : pystr) : pystr :=
  if (c =? 0x3A3)%N
  then (if final_sigma before after then [0x3C2%N] else [0x3C3%N])
  else to_lower_full c.

Fixpoint lower_from (before s : pystr) : pystr :=
  match s with
  | [] => []
  | c :: after => lower_at before c after ++ lower_from (c :: before) after
  end.

Definition lower (s : pystr) : pystr := lower_from [] s.

(** *** [_get_cache_key] *)

Definition _get_cache_key (text : pystr) (analysis_type : string)
  : option string :=
  match encode text with
  | Some bs => Some (analysis_type +:+ "_" +:+ md5_hexdigest bs)
  | None => None
  end.

(** *** The fallback constructors *)

Definition assets_or_default (mentioned_tickers : list pystr) : value :=
  if truthy mentioned_tickers
  then VList (map VStr mentioned_tickers)
  else VList [VStr (py "RUB")].

Definition _create_basic_fallback
    (news_text : pystr) (mentioned_tickers : list pystr) : value :=
  VDict (list_to_map
    [("summary", VStr (py "Базовая оценка: " ++ take 100 news_text ++ py "..."));
     ("sentiment", VStr (py "нейтральный"));
     ("risk_level", VStr (py "средний"));
     ("affected_assets", assets_or_default mentioned_tickers);
     ("market_impact", VStr (py "Требуется дополнительный анализ"));
     ("short_term_action", VStr (py "Следить за развитием ситуации"));
     ("is_fallback", VBool true)]).

Definition str_of_nat (n : nat) : pystr := py (pretty n).

Definition sentiment_of (positive_count negative_count : nat) : pystr * Q :=
  if (negative_count <? positive_count)%nat then (py "позитивный", 0.5%Q)
  else if (positive_count <? negative_count)%nat then (py "негативный", (-0.5)%Q)
  else (py "нейтральный", 0.0%Q).

Definition risk_level_of (risk_count : nat) : pystr :=
  if (2 <=? risk_count)%nat then py "высокий"
  else if (risk_count =? 1)%nat then py "средний"
  else py "низкий".

Definition action_of (sentiment : pystr) : pystr :=
  if decide (sentiment = py "позитивный")
  then py "Рассмотреть возможность увеличения позиций"
  else if decide (sentiment = py "негативный")
  then py "Рекомендуется осторожность, возможна коррекция"
  else py "Сохранять текущие позиции, следить за новостями".

(** [t] is the instant [datetime.now()] returns when the result is built. *)
Definition _create_enhanced_fallback
    (t : Z) (news_text : pystr) (mentioned_tickers : list pystr) : value :=
  let text_lower := lower news_text in
  let positive_count := count_present positive_words text_lower in
  let negative_count := count_present negative_words text_lower in
  let '(sentiment, sentiment_score) :=
    sentiment_of positive_count negative_count in
  let risk_count := count_present risk_words text_lower in
  let risk_level := risk_level_of risk_count in
  let action := action_of sentiment in
  VDict (list_to_map
    [("summary", VStr (py "Анализ на основе ключевых слов: "
                         ++ take 120 news_text ++ py "..."));
     ("detailed_analysis",
        VStr (py "Найдено " ++ str_of_nat positive_count
                ++ py " позитивных и " ++ str_of_nat negative_count
                ++ py " негативных сигналов"));
     ("sentiment", VStr sentiment);
     ("sentiment_score", VFloat sentiment_score);
     ("risk_level", VStr risk_level);
     ("risk_explanation",
        VStr (py "Обнаружено " ++ str_of_nat risk_count
                ++ py " слов высокого риска"));
     ("affected_assets", assets_or_default mentioned_tickers);
     ("market_impact", VStr (py "Локальное влияние на упомянутые активы"));
     ("short_term_forecast",
        VStr (py "Ожидается " ++ sentiment ++ py " динамика"));
     ("recommended_actions", VStr action);
     ("key_risks",
        if decide (risk_level <> py "низкий")
        then VList [VStr (py "Ограниченность анализа")]
        else VList []);
     ("opportunities", VList [VStr (py "Требуется более глубокий анализ")]);
     ("confidence", VFloat 0.6%Q);
     ("analyzed_at", VStr (isoformat t));
     ("is_fallback", VBool true)]).

(** *** [_extract_json_from_response] *)

Definition fence_json : pystr := Eval cbv in py "```json" ++ [10%N].
Definition fence_plain : pystr := Eval cbv in py "```" ++ [10%N].
Definition fence_close : pystr := Eval cbv in 10%N :: py "```".
Definition brace_open : pystr := Eval cbv in py "{".
Definition brace_close : pystr := Eval cbv in py "}".

(** [re.search(opener + r'(.*?)\n```', text, re.DOTALL)], group 1: the
    search stops at the leftmost [opener]; the lazy group then ends at the
    first closing fence after it. *)
Definition search_fenced (opener text : pystr) : option pystr :=
  match find opener text with
  | None => None
  | Some i =>
      let rest := drop (i + length opener) text in
      match find fence_close rest with
      | None => None
      | Some j => Some (take j rest)
      end
  end.

(** [text[start:end+1]] for the first opening and the last closing brace,
    when [start != -1 and end != -1 and end > start]. *)
Definition brace_slice (text : pystr) : option pystr :=
  match find brace_open text, rfind brace_close text with
  | Some start, Some end_ =>
      if (start <? end_)%nat
      then Some (take (end_ + 1 - start) (drop start text))
      else None
  | _, _ => None
  end.

(** [re.search(r'({.*})', text, re.DOTALL)], group 1: the greedy group runs
    from the leftmost opening brace to the last closing brace. *)
Definition search_braces (text : pystr) : option pystr := brace_slice text.

Definition json_patterns : list (pystr -> option pystr) :=
  [search_fenced fence_json; search_fenced fence_plain; search_braces].

(** The [for pattern in json_patterns] loop, followed by the manual search.
    The whole body sits in one [try]: a parse error of the first matching
    candidate is caught outside the loop and ends the method with [None]. *)
Fixpoint extract_loop (patterns : list (pystr -> option pystr))
    (text : pystr) : option value :=
  match patterns with
  | pattern :: patterns' =>
      match pattern text with
      | Some json_str => json_loads json_str
      | None => extract_loop patterns' text
      end
  | [] =>
      match brace_slice text with
      | Some json_str => json_loads json_str
      | None => None
      end
  end.

Definition _extract_json_from_response (text : pystr) : option value :=
  extract_loop json_patterns text.

(** *** Cache persistence *)

(** [_load_cache]: a missing or unreadable file leaves the cache as it is. *)
Definition _load_cache (self : analyzer) (w : world) : analyzer :=
  match disk w with
  | Some c => set_cache c self
  | None => self
  end.

(** [__init__] *)
Definition __init__ (api_key folder_id cloud_id : option pystr) (w : world)
  : analyzer :=
  _load_cache
    {| api_key := api_key; folder_id := folder_id; cloud_id := cloud_id;
       cache := ∅; request_count := 0; cache_enabled := true |} w.

(** Entries that survive a purge with the given cutoff: those whose
    timestamp is not before it. *)
Definition keep_since (cutoff : Z) (c : gmap string cache_entry)
  : gmap string cache_entry :=
  filter (fun kv => ¬ (timestamp kv.2 < cutoff)) c.

Definition _save_cache (self : analyzer) (w : world) : analyzer * world :=
  if negb (cache_enabled self) then (self, w)
  else
    let week_ago := now w - timedelta_days 7 in
    let kept := keep_since week_ago (cache self) in
    (set_cache kept self, dump kept w).

(** [clear_cache]: [older_than_days] is tested for truth, so [None] and [0]
    both empty the cache. *)
Definition clear_cache (older_than_days : option Z) (self : analyzer)
    (w : world) : analyzer * world :=
  let self' :=
    match older_than_days with
    | Some d =>
        if (d =? 0)%Z then set_cache ∅ self
        else set_cache (keep_since (now w - timedelta_days d) (cache self)) self
    | None => set_cache ∅ self
    end in
  _save_cache self' w.

Definition enable_cache (enable : bool) (self : analyzer) : analyzer :=
  set_cache_enabled enable self.

(** The cache test at the head of [analyze_news]: the stored data when the
    cache is in use, holds the key, and the entry is younger than a day. *)
Definition cache_lookup (self : analyzer) (w : world) (cache_key : string)
    (use_cache : bool) : option value :=
  if use_cache && cache_enabled self then
    match cache self !! cache_key with
    | Some cached =>
        if bool_decide (now w - timestamp cached < timedelta_days 1)
        then Some (data cached)
        else None
    | None => None
    end
  else None.

(** *** [analyze_news] and [_analyze_with_retry] *)

(** [if not self.api_key]: [None] and the empty string are both false. *)
Definition key_present (k : option pystr) : bool :=
  match k with
  | Some s => truthy s
  | None => false
  end.

(** The return statement of the failure branches and handlers. *)
Definition enhanced_fallback (self : analyzer) (w : world)
    (news_text : pystr) (mentioned_tickers : list pystr) : outcome value :=
  Returned (_create_enhanced_fallback (now w) news_text mentioned_tickers)
           self w.

(** The [for attempt in range(retries)] loop of [_analyze_with_retry];
    [again] is the call [self.analyze_news(news_text, mentioned_tickers,
    use_cache=False)].  The loop returns whatever the call returns; only a
    call that raises leads to the next attempt. *)
Fixpoint retry_loop (again : analyzer -> world -> outcome value)
    (news_text : pystr) (mentioned_tickers : list pystr)
    (attempts : list nat) (self : analyzer) (w : world) : outcome value :=
  match attempts with
  | [] => enhanced_fallback self w news_text mentioned_tickers
  | attempt :: attempts' =>
      let w1 := sleep (2 ^ Z.of_nat attempt) w in
      match again self w1 with
      | Returned r self' w' => Returned r self' w'
      | Raised _ self' w' =>
          retry_loop again news_text mentioned_tickers attempts' self' w'
      | Unfinished => Unfinished
      end
  end.

Definition _analyze_with_retry (again : analyzer -> world -> outcome value)
    (news_text : pystr) (mentioned_tickers : list pystr) (retries : nat)
    (self : analyzer) (w : world) : outcome value :=
  retry_loop again news_text mentioned_tickers (seq 0 retries) self w.

(** The branch for a 200 response whose text is [ai_text]. *)
Definition on_success_status (self : analyzer) (w : world)
    (news_text : pystr) (mentioned_tickers : list pystr)
    (use_cache : bool) (cache_key : string) (ai_text : pystr)
  : outcome value :=
  match _extract_json_from_response ai_text with
  | Some (VDict analysis) =>
      if bool_decide (is_Some (analysis !! "summary")) then
        match encode news_text with
        | Some bs =>
            let analysis :=
              <["is_fallback" := VBool false]>
                (<["text_hash" := VStr (py (substring 0 8 (md5_hexdigest bs)))]>
                   (<["analyzed_at" := VStr (isoformat (now w))]> analysis)) in
            if use_cache && cache_enabled self then
              let self1 :=
                set_cache (<[cache_key := CacheEntry (now w) (VDict analysis)]>
                             (cache self)) self in
              let '(self2, w2) := _save_cache self1 w in
              Returned (VDict analysis) self2 w2
            else Returned (VDict analysis) self w
        | None => enhanced_fallback self w news_text mentioned_tickers
        end
      else enhanced_fallback self w news_text mentioned_tickers
  | _ =>
      (* nothing extracted, a falsy value, or a list, string or number: the
         test fails or the item assignment raises inside the [try] *)
      enhanced_fallback self w news_text mentioned_tickers
  end.

(** [fuel] bounds the depth of nested [analyze_news] calls. *)
Fixpoint analyze_news (fuel : nat) (self : analyzer) (w : world)
    (news_text : pystr) (mentioned_tickers : option (list pystr))
    (use_cache : bool) : outcome value :=
  match fuel with
  | O => Unfinished
  | S fuel' =>
      let mentioned_tickers := default [] mentioned_tickers in
      if negb (key_present (api_key self))
      then Returned (_create_basic_fallback news_text mentioned_tickers) self w
      else
        match _get_cache_key news_text "news" with
        | None => Raised UnicodeEncodeError self w
        | Some cache_key =>
            match cache_lookup self w cache_key use_cache with
            | Some cached_data => Returned cached_data self w
            | None =>
                (* try: *)
                let self1 := set_request_count (S (request_count self)) self in
                let w1 :=
                  if (request_count self1 mod 5 =? 0)%nat then sleep 1 w else w in
                match remote (request_count self1) with
                | Response status_code body =>
                    if (status_code =? 200)%Z then
                      match body with
                      | Some ai_text =>
                          on_success_status self1 w1 news_text
                            mentioned_tickers use_cache cache_key ai_text
                      | None =>
                          enhanced_fallback self1 w1 news_text mentioned_tickers
                      end
                    else if (status_code =? 429)%Z then
                      let w2 := sleep 2 w1 in
                      match
                        _analyze_with_retry
                          (fun s w' =>
                             analyze_news fuel' s w' news_text
                               (Some mentioned_tickers) false)
                          news_text mentioned_tickers 2 self1 w2
                      with
                      | Raised _ self' w' =>
                          enhanced_fallback self' w' news_text mentioned_tickers
                      | o => o
                      end
                    else enhanced_fallback self1 w1 news_text mentioned_tickers
                | Exc_Timeout | Exc_ConnectionError | Exc_Other =>
                    enhanced_fallback self1 w1 news_text mentioned_tickers
                end
            end
        end
  end.

End Client.

(** ** Sample instances of the library functions

    Concrete stand-ins used to run the client on sample inputs.  The case
    mapping and the parser agree with the library functions on the inputs
    they meet in this file; the digest and the rendering of instants are
    arbitrary, and no statement depends on their values. *)
Module Sample.

(** Lowercase mapping for ASCII and the basic Cyrillic block, identity
    elsewhere. *)
Definition to_lower_full (c : N) : pystr :=
  if (0x41 <=? c)%N && (c <=? 0x5A)%N then [(c + 32)%N]
  else if (0x410 <=? c)%N && (c <=? 0x42F)%N then [(c + 32)%N]
  else if (0x400 <=? c)%N && (c <=? 0x40F)%N then [(c + 80)%N]
  else [c].

Definition final_sigma (before after : pystr) : bool := false.

(** A stand-in digest: a fixed-width hexadecimal checksum of the bytes. *)
Definition hex_digit (n : N) : ascii :=
  ascii_of_N (if (n <? 10)%N then 48 + n else 87 + n).

Fixpoint hex_of (width : nat) (n : N) : string :=
  match width with
  | O => EmptyString
  | S width' => hex_of width' (n / 16) +:+ String (hex_digit (n mod 16)) EmptyString
  end.

Definition md5_hexdigest (bs : list N) : string :=
  hex_of 32 (fold_left (fun acc b => (acc * 257 + b + 1) mod 2 ^ 128)%N bs 0%N).

(** A stand-in rendering of an instant: its decimal microsecond count. *)
Definition isoformat (t : Z) : pystr := py (pretty t).

(** A parser for the fragment of JSON without escapes, fractions and
    exponents: objects, arrays, plain strings, integers, [true], [false]
    and [null], with optional white space.  It rejects everything else. *)
Definition is_ws (c : N) : bool :=
  (c =? 32)%N || (c =? 9)%N || (c =? 10)%N || (c =? 13)%N.

Fixpoint skip_ws (s : pystr) : pystr :=
  match s with
  | c :: s' => if is_ws c then skip_ws s' else s
  | [] => []
  end.

Fixpoint string_body (s acc : pystr) : option (pystr * pystr) :=
  match s with
  | [] => None
  | c :: s' =>
      if (c =? 34)%N then Some (rev acc, s')
      else if (c =? 92)%N || (c <? 32)%N then None
      else string_body s' (c :: acc)
  end.

Fixpoint digits (s : pystr) (acc : Z) : Z * pystr :=
  match s with
  | c :: s' =>
      if (48 <=? c)%N && (c <=? 57)%N
      then digits s' (acc * 10 + Z.of_N (c - 48))
      else (acc, s)
  | [] => (acc, [])
  end.

Definition is_digit (c : N) : bool := (48 <=? c)%N && (c <=? 57)%N.

Definition key_of (s : pystr) : option string :=
  match encode s with
  | Some bs => Some (string_of_list_ascii (map ascii_of_N bs))
  | None => None
  end.

Fixpoint parse_value (fuel : nat) (s : pystr) : option (value * pystr) :=
  match fuel with
  | O => None
  | S fuel' =>
      match skip_ws s with
      | [] => None
      | c :: r =>
          if (c =? 34)%N then
            match string_body r [] with
            | Some (str, r') => Some (VStr str, r')
            | None => None
            end
          else if (c =? 123)%N then
            match skip_ws r with
            | 125%N :: r' => Some (VDict ∅, r')
            | _ => parse_members fuel' r ∅
            end
          else if (c =? 91)%N then
            match skip_ws r with
            | 93%N :: r' => Some (VList [], r')
            | _ => parse_elements fuel' r []
            end
          else if starts_with (py "true") (c :: r)
          then Some (VBool true, drop 3 r)
          else if starts_with (py "false") (c :: r)
          then Some (VBool false, drop 4 r)
          else if starts_with (py "null") (c :: r)
          then Some (VNone, drop 3 r)
          else if (c =? 45)%N then
            match r with
            | d :: _ =>
                if is_digit d
                then let '(n, r') := digits r 0 in Some (VInt (- n), r')
                else None
            | [] => None
            end
          else if is_digit c
          then let '(n, r') := digits (c :: r) 0 in Some (VInt n, r')
          else None
      end
  end
with parse_members (fuel : nat) (s : pystr) (acc : gmap string value)
  : option (value * pystr) :=
  match fuel with
  | O => None
  | S fuel' =>
      match skip_ws s with
      | 34%N :: r =>
          match string_body r [] with
          | Some (k, r') =>
              match key_of k, skip_ws r' with
              | Some key, 58%N :: r'' =>
                  match parse_value fuel' r'' with
                  | Some (v, r3) =>
                      match skip_ws r3 with
                      | 44%N :: r4 => parse_members fuel' r4 (<[key := v]> acc)
                      | 125%N :: r4 => Some (VDict (<[key := v]> acc), r4)
                      | _ => None
                      end
                  | None => None
                  end
              | _, _ => None
              end
          | None => None
          end
      | _ => None
      end
  end
with parse_elements (fuel : nat) (s : pystr) (acc : list value)
  : option (value * pystr) :=
  match fuel with
  | O => None
  | S fuel' =>
      match parse_value fuel' s with
      | Some (v, r) =>
          match skip_ws r with
          | 44%N :: r' => parse_elements fuel' r' (acc ++ [v])
          | 93%N :: r' => Some (VList (acc ++ [v]), r')
          | _ => None
          end
      | None => None
      end
  end.

Definition json_loads (s : pystr) : option value :=
  match parse_value (S (length s)) s with
  | Some (v, rest) =>
      match skip_ws rest with
      | [] => Some v
      | _ :: _ => None
      end
  | None => None
  end.

(** Pieces of sample texts: the double quote and the line feed. *)
Definition q : pystr := [34%N].
Definition nl : pystr := [10%N].

(** [{"summary": "ok"}] *)
Definition summary_object : pystr :=
  py "{" ++ q ++ py "summary" ++ q ++ py ": " ++ q ++ py "ok" ++ q ++ py "}".

(** An endpoint that answers every request with HTTP 429. *)
Definition always_429 (n : nat) : reply := Response 429 None.

(** An endpoint that answers the first [k] requests with HTTP 429 and every
    later one with status 200 and the text [ai_text]. *)
Definition busy_then_ok (k : nat) (ai_text : pystr) (n : nat) : reply :=
  if (n <=? k)%nat then Response 429 None else Response 200 (Some ai_text).

(** An endpoint that answers every request with the same reply. *)
Definition always (r : reply) (n : nat) : reply := r.

(** A freshly constructed analyzer (no cache file) and the world at an
    arbitrary instant. *)
Definition world0 : world := {| now := 1000000000; disk := None; slept := [] |}.

Definition fresh (api_key folder_id : option pystr) : analyzer :=
  __init__ api_key folder_id (Some (py "cloud")) world0.

(** An analyzer with both credentials, one without a folder identifier,
    and one without any credential. *)
Definition keyed : analyzer := fresh (Some (py "key")) (Some (py "folder")).
Definition unfoldered : analyzer := fresh (Some (py "key")) None.
Definition keyless : analyzer := fresh None None.

(** A remote result, as a call would have stored it. *)
Definition old_result : value :=
  VDict (list_to_map [("summary", VStr (py "old")); ("is_fallback", VBool false)]).

(** An analyzer whose caching was switched off by [enable_cache(False)]
    while its cache holds an entry written at instant 0, and a world eight
    days after that instant. *)
Definition stale_analyzer : analyzer :=
  enable_cache false
    (set_cache {[ "news_old" := CacheEntry 0 old_result ]} keyed).
Definition stale_world : world :=
  {| now := timedelta_days 8; disk := None; slept := [] |}.

(** The same cache with caching left on. *)
Definition aged_analyzer : analyzer :=
  set_cache {[ "news_old" := CacheEntry 0 old_result ]} keyed.

(** A response whose json block does not parse, followed by a well-formed
    object. *)
Definition broken_fence_text : pystr :=
  fence_json ++ py "oops" ++ nl ++ py "```" ++ nl ++ summary_object.

(** A well-formed object in a json block, and one amid prose. *)
Definition fenced_text : pystr :=
  py "Result:" ++ nl ++ fence_json ++ summary_object ++ nl ++ py "```".
Definition prose_text : pystr :=
  py "Here it is: " ++ summary_object ++ py " - done".

(** The cache key of the sample text, an analyzer that holds a result for
    it, stored at the instant of [world0], and the dictionary that
    [summary_object] parses to. *)
Definition text_key : string :=
  default "" (_get_cache_key md5_hexdigest (py "text") "news").
Definition cached_analyzer : analyzer :=
  set_cache {[ text_key := CacheEntry (now world0) old_result ]} keyed.
Definition summary_dict : gmap string value :=
  {[ "summary" := VStr (py "ok") ]}.

Definition run (remote : nat -> reply) :=
  analyze_news to_lower_full final_sigma md5_hexdigest isoformat json_loads
               remote.

End Sample.

(** ** The callers of [analyze_news]

    [analyze_multiple_news] and the module-level functions [init_analyzer],
    [get_analyzer] and [analyze_text], which work on the global analyzer. *)

(** [range(i, stop, step)] for a positive [step]; [fuel] bounds the number
    of its elements. *)
Fixpoint range_from (fuel i stop step : nat) : list nat :=
  match fuel with
  | O => []
  | S fuel' =>
      if (i <? stop)%nat then i :: range_from fuel' (i + step) stop step
      else []
  end.

(** [range(0, n, step)]: a zero step raises [ValueError] ([None]), a negative
    step gives the empty range. *)
Definition py_range (n : nat) (step : Z) : option (list nat) :=
  if (step =? 0)%Z then None
  else if (step <? 0)%Z then Some []
  else Some (range_from n 0 n (Z.to_nat step)).

(** [l[i:i+step]] *)
Definition slice {A} (l : list A) (i step : nat) : list A :=
  take step (drop i l).

(** One element of [news_list]: a dictionary of which [text] and [tickers]
    are read with [get], either of which may be missing. *)
Record news_item : Type := NewsItem {
  item_text : option pystr;
  item_tickers : option (list pystr)
}.

(** One element of the result list: [{"news": ..., "analysis": ...}], with
    an ["error"] when the analysis raised. *)
Record batch_result : Type := BatchResult {
  result_news : news_item;
  result_analysis : value;
  result_error : option pyexc
}.

(** How [analyze_multiple_news] ends: with its list, with the [ValueError]
    of a zero [batch_size], or not within the given depth of calls. *)
Inductive batch_outcome : Type :=
| BatchReturned (results : list batch_result) (self : analyzer) (w : world)
| BatchValueError (self : analyzer) (w : world)
| BatchUnfinished.

(** How a module-level function ends; [global] is the value of the module
    variable [yandex_analyzer] afterwards. *)
Inductive module_outcome (A : Type) : Type :=
| Done (r : A) (global : option analyzer) (w : world)
| Failed (e : pyexc) (global : option analyzer) (w : world)
| Pending.
Arguments Done {A} r global w.
Arguments Failed {A} e global w.
Arguments Pending {A}.

(** The text and the tickers of the test request of [init_analyzer]. *)
Definition test_news : pystr :=
  Eval cbv in py "Тестовая новость: Рынок акций показывает стабильность.".
Definition test_tickers : list pystr := Eval cbv in [py "SBER"; py "GAZP"].

(** What [analyze_text] returns while no analyzer is installed. *)
Definition unavailable : value :=
  VDict (list_to_map
    [("summary", VStr (py "Анализатор недоступен"));
     ("error", VStr (py "Yandex GPT анализатор не инициализирован"));
     ("is_fallback", VBool true)]).

Section Callers.

Variable to_lower_full : N -> pystr.
Variable final_sigma : pystr -> pystr -> bool.
Variable md5_hexdigest : list N -> string.
Variable isoformat : Z -> pystr.
Variable json_loads : pystr -> option value.
Variable remote : nat -> reply.

(** The inner loop [for news in batch], appending to [results]; [None] when
    a call does not finish. *)
Fixpoint analyze_batch (fuel : nat) (batch : list news_item)
    (results : list batch_result) (self : analyzer) (w : world)
  : option (list batch_result * analyzer * world) :=
  match batch with
  | [] => Some (results, self, w)
  | news :: batch' =>
      let text := default [] (item_text news) in
      let tickers := default [] (item_tickers news) in
      match analyze_news to_lower_full final_sigma md5_hexdigest isoformat
              json_loads remote fuel self w text (Some tickers) true with
      | Returned analysis self' w' =>
          analyze_batch fuel batch'
            (results ++ [BatchResult news analysis None]) self' w'
      | Raised e self' w' =>
          analyze_batch fuel batch'
            (results
               ++ [BatchResult news
                     (_create_enhanced_fallback to_lower_full final_sigma
                        isoformat (now w') text tickers)
                     (Some e)])
            self' w'
      | Unfinished => None
      end
  end.

(** The outer loop [for i in range(0, len(news_list), batch_size)], with its
    pause after every batch but the last. *)
Fixpoint batches_loop (fuel : nat) (starts : list nat)
    (news_list : list news_item) (batch_size : nat)
    (results : list batch_result) (self : analyzer) (w : world)
  : option (list batch_result * analyzer * world) :=
  match starts with
  | [] => Some (results, self, w)
  | i :: starts' =>
      let batch := slice news_list i batch_size in
      match analyze_batch fuel batch results self w with
      | Some (results', self', w') =>
          let w'' :=
            if (i + batch_size <? length news_list)%nat then sleep 1 w'
            else w' in
          batches_loop fuel starts' news_list batch_size results' self' w''
      | None => None
      end
  end.

Definition analyze_multiple_news (fuel : nat) (self : analyzer) (w : world)
    (news_list : list news_item) (batch_size : Z) : batch_outcome :=
  match py_range (length news_list) batch_size with
  | None => BatchValueError self w
  | Some starts =>
      match batches_loop fuel starts news_list (Z.to_nat batch_size) []
              self w with
      | Some (results, self', w') => BatchReturned results self' w'
      | None => BatchUnfinished
      end
  end.

(** [init_analyzer]: the constructor is called with [base_url] in the place
    of [cloud_id]; both branches after the test request return [True]. *)
Definition init_analyzer (fuel : nat) (global : option analyzer) (w : world)
    (api_key folder_id cloud_id : option pystr) (base_url : pystr)
  : module_outcome bool :=
  if negb (key_present api_key) || negb (key_present folder_id)
  then Done false global w
  else
    let created := __init__ api_key folder_id (Some base_url) w in
    match analyze_news to_lower_full final_sigma md5_hexdigest isoformat
            json_loads remote fuel created w test_news (Some test_tickers)
            true with
    | Returned test_result self' w' => Done true (Some self') w'
    | Raised _ self' w' => Done false (Some self') w'
    | Unfinished => Pending
    end.

Definition get_analyzer (global : option analyzer) : option analyzer := global.

(** [analyze_text]: [tickers or []] turns [None] into the empty list. *)
Definition analyze_text (fuel : nat) (global : option analyzer) (w : world)
    (text : pystr) (tickers : option (list pystr)) : module_outcome value :=
  match global with
  | None => Done unavailable None w
  | Some self =>
      match analyze_news to_lower_full final_sigma md5_hexdigest isoformat
              json_loads remote fuel self w text
              (Some (default [] tickers)) true with
      | Returned r self' w' => Done r (Some self') w'
      | Raised e self' w' => Failed e (Some self') w'
      | Unfinished => Pending
      end
  end.

End Callers.

(** ** The report helpers of [bot.py] and [analyze.py]

    A Python float is modelled by the rational number it denotes: the
    helpers only compare floats, negate them and take their minimum or
    maximum, all of which are exact.  (A NaN, which compares false with
    everything, is not modelled.) *)

(** The floats [0.5] and [0.3]: the first is exact, the second is the
    double nearest to three tenths. *)
Definition float_0_5 : Q := 1 # 2.
Definition float_0_3 : Q := 5404319552844595 # 18014398509481984.

(** [a > b] on floats *)
Definition float_gt (a b : Q) : bool := negb (Qle_bool a b).

(** [analysis_command] of [bot.py]: the messages a report is sent in,
    [[report[i:i+4000] for i in range(0, len(report), 4000)]] when the report
    is longer than 4000 and the report itself otherwise. *)
Definition message_parts (report : pystr) : list pystr :=
  if (4000 <? length report)%nat then
    map (fun i => slice report i 4000)
        (range_from (length report) 0 (length report) 4000)
  else [report].

Definition high_impact_words : list pystr :=
  Eval cbv in map py ["кризис"; "обвал"; "война"; "санкции"; "дефолт"; "банкротство"].
Definition medium_impact_words : list pystr :=
  Eval cbv in map py ["рост"; "падение"; "изменение"; "отчет"; "результаты"].

(** The keyword lists of [get_main_topic], in the order of its branches. *)
Definition stock_words : list pystr :=
  Eval cbv in map py ["индекс"; "мосбирж"; "акции"; "сбер"; "газпром"; "яндекс"].
Definition metal_words : list pystr :=
  Eval cbv in map py ["серебро"; "золото"; "xag"; "xau"; "металлы"].
Definition commodity_words : list pystr :=
  Eval cbv in map py ["нефть"; "brent"; "газ"; "росин"; "лукойл"].
Definition technology_words : list pystr :=
  Eval cbv in map py ["ии"; "искусственный интеллект"; "технологии"; "инвестиции"].
Definition geopolitics_words : list pystr :=
  Eval cbv in map py ["венесуэла"; "санкции"; "геополитика"; "сша"; "россия"].
Definition statistics_words : list pystr :=
  Eval cbv in map py ["итоги года"; "результаты"; "статистика"].

(** The keyword lists of [enhanced_sentiment_analysis]. *)
Definition growth_words : list pystr :=
  Eval cbv in map py
    ["рост"; "выше"; "увелич"; "прибыль"; "рекорд"; "усили"; "+"; "повыси";
     "прогресс"; "улучш"; "победа"; "достижен"; "позитив"; "инвестиции";
     "привлек"; "успех"; "планирует"; "развитие"; "уверен"].
Definition decline_words : list pystr :=
  Eval cbv in map py
    ["падение"; "ниже"; "снижен"; "убыток"; "кризис"; "ослабл"; "-"; "понизи";
     "проблем"; "риск"; "негатив"; "проигрыш"; "потеря"; "спад"; "обвал";
     "сокращ"; "увольн"; "санкции"; "запрет"; "ограничен"].

(** [any(word in text for word in words)] *)
Definition any_in (words : list pystr) (text : pystr) : bool :=
  existsb (fun word => contains word text) words.

Section Helpers.

Variable to_lower_full : N -> pystr.
Variable final_sigma : pystr -> pystr -> bool.
(** [str.isspace] of one code point. *)
Variable is_space : N -> bool.
(** The global [sentiment_analyzer]: [None] while no model is loaded;
    applied to a text the model gives the label and the score of its first
    verdict, or [None] when the call raises. *)
Variable sentiment_analyzer : option (pystr -> option (string * Q)).

(** [get_market_impact], for a [text] that is a [str]. *)
Definition get_market_impact (text : pystr) (sentiment : Q) : pystr :=
  let text_lower := lower to_lower_full final_sigma text in
  let impact_score :=
    fold_left (fun score word =>
                 if contains word text_lower then (score + 3)%nat else score)
              high_impact_words 0%nat in
  let impact_score :=
    fold_left (fun score word =>
                 if contains word text_lower then (score + 1)%nat else score)
              medium_impact_words impact_score in
  let impact_score :=
    if float_gt (Qabs sentiment) float_0_5 then (impact_score + 2)%nat
    else if float_gt (Qabs sentiment) float_0_3 then (impact_score + 1)%nat
    else impact_score in
  if (4 <=? impact_score)%nat then py "Высокое"
  else if (2 <=? impact_score)%nat then py "Среднее"
  else py "Низкое".

(** [get_main_topic], for a [text] that is a [str]. *)
Definition get_main_topic (text : pystr) : pystr :=
  let text_lower := lower to_lower_full final_sigma text in
  if any_in stock_words text_lower then py "Фондовый рынок России"
  else if any_in metal_words text_lower then py "Драгоценные металлы"
  else if any_in commodity_words text_lower then py "Сырьевые рынки"
  else if any_in technology_words text_lower then py "Технологии и инновации"
  else if any_in geopolitics_words text_lower then py "Геополитика"
  else if any_in statistics_words text_lower then py "Рыночная статистика"
  else py "Финансовые рынки".

(** [analyze_sentiment], for a [text] that is a [str]: [text.strip()] is
    empty exactly when every code point of the text is white space. *)
Definition analyze_sentiment (text : pystr) : Q :=
  if forallb is_space text then 0%Q
  else
    match sentiment_analyzer with
    | None => 0%Q
    | Some model =>
        match model (take 512 text) with
        | Some (label, score) =>
            if String.eqb label "POSITIVE" then score
            else if String.eqb label "NEGATIVE" then (- score)%Q
            else 0%Q
        | None => 0%Q
        end
    end.

(** [enhanced_sentiment_analysis], for a [text] that is a [str]: every label
    but [POSITIVE] turns the score negative. *)
Definition enhanced_sentiment_analysis (text : pystr) : Q :=
  let base_sentiment :=
    match sentiment_analyzer with
    | None => 0%Q
    | Some model =>
        match model (take 512 text) with
        | Some (label, score) =>
            if String.eqb label "POSITIVE" then score else (- score)%Q
        | None => 0%Q
        end
    end in
  let text_lower := lower to_lower_full final_sigma text in
  let growth_count := count_present growth_words text_lower in
  let decline_count := count_present decline_words text_lower in
  if (growth_count <? decline_count)%nat
  then Qmin base_sentiment (- float_0_3)%Q
  else if (decline_count <? growth_count)%nat
  then Qmax base_sentiment float_0_3
  else base_sentiment.

(** The impact [generate_daily_report] enters in the row of a text: the
    column [sentiment] holds [enhanced_sentiment_analysis] of the text and the
    column [impact] is computed from the text and that sentiment. *)
Definition row_impact (text : pystr) : pystr :=
  get_market_impact text (enhanced_sentiment_analysis text).

End Helpers.

(** ** The ticker counts of [analyze.py]

    A [Counter] is modelled by the list of its items in the order the keys
    were inserted, which is the order [most_common] breaks ties by. *)

(** [counts[item] = counts.get(item, 0) + 1] *)
Fixpoint count_element (item : pystr) (counts : list (pystr * nat))
  : list (pystr * nat) :=
  match counts with
  | [] => [(item, 1%nat)]
  | (k, c) :: counts' =>
      if bool_decide (k = item) then (k, S c) :: counts'
      else (k, c) :: count_element item counts'
  end.

(** [Counter(items)] *)
Definition Counter (items : list pystr) : list (pystr * nat) :=
  fold_left (fun counts item => count_element item counts) items [].

(** [sorted(counts, key=itemgetter(1), reverse=True)]: the sort is stable,
    items of equal count keep their order. *)
Fixpoint insert_by_count (p : pystr * nat) (sorted : list (pystr * nat))
  : list (pystr * nat) :=
  match sorted with
  | [] => [p]
  | q :: sorted' =>
      if (snd p <? snd q)%nat then q :: insert_by_count p sorted'
      else p :: sorted
  end.

Definition sorted_by_count (counts : list (pystr * nat))
  : list (pystr * nat) :=
  foldr insert_by_count [] counts.

(** [counts.most_common(limit)], for a [limit] that is not negative. *)
Definition most_common (limit : nat) (counts : list (pystr * nat))
  : list (pystr * nat) :=
  take limit (sorted_by_count counts).

(** What [get_top_tickers_from_df] is called with: the data frame of the
    report, given by its column [mentions] (an entry is [None] when it is
    not a list), or the integer that [get_top_tickers] passes in its
    place. *)
Inductive frame_arg : Type :=
| IntArg (n : nat)
| Frame (mentions : list (option (list pystr))).

Definition country_prefix : pystr := Eval cbv in py "COUNTRY_".

(** [all_tickers] of [get_top_tickers_from_df]: the mentions of the rows
    without those of countries. *)
Definition frame_tickers (rows : list (option (list pystr))) : list pystr :=
  concat (map (fun mentions =>
                 match mentions with
                 | Some l =>
                     List.filter (fun m => negb (starts_with country_prefix m))
                                 l
                 | None => []
                 end) rows).

(** [get_top_tickers_from_df]: [None] stands for the [AttributeError] that
    [df.empty] raises on an integer. *)
Definition get_top_tickers_from_df (df : frame_arg) (limit : nat)
  : option (list (pystr * nat)) :=
  match df with
  | IntArg _ => None
  | Frame rows =>
      match rows with
      | [] => Some []
      | _ => Some (most_common limit (Counter (frame_tickers rows)))
      end
  end.

(** The list [get_top_tickers] returns from its exception handler. *)
Definition placeholder_tickers : list (pystr * nat) :=
  Eval cbv in [(py "GAZP", 15%nat); (py "SBER", 12%nat); (py "ROSN", 8%nat);
               (py "AAPL", 6%nat); (py "TSLA", 5%nat)].

(** [all_tickers] of [get_top_tickers]: a post is given by its item
    [tickers], a list of strings, or [None] when it has none. *)
Definition post_tickers (posts : list (option (list pystr))) : list pystr :=
  concat (map (default []) posts).

(** [get_top_tickers], for a [limit] that is not negative.  [file] is [None]
    when [detailed_posts.json] does not exist, [Some None] when opening or
    parsing it raises, and holds the posts otherwise.  The two calls of
    [get_top_tickers_from_df] pass [limit] as the data frame; what they raise
    is caught by the handler of [get_top_tickers]. *)
Definition get_top_tickers (file : option (option (list (option (list pystr)))))
    (limit : nat) : list (pystr * nat) :=
  match file with
  | None =>
      default placeholder_tickers (get_top_tickers_from_df (IntArg limit) 10)
  | Some None => placeholder_tickers
  | Some (Some posts) =>
      match post_tickers posts with
      | [] =>
          default placeholder_tickers
            (get_top_tickers_from_df (IntArg limit) 10)
      | all_tickers => most_common limit (Counter all_tickers)
      end
  end.

(** ** Sample data for the report helpers *)
Module SampleReport.

(** White space of ASCII. *)
Definition is_space (c : N) : bool :=
  (c =? 32)%N || ((9 <=? c)%N && (c <=? 13)%N).

(** A model that finds every text neutral, with a score of nine tenths. *)
Definition neutral_model (text : pystr) : option (string * Q) :=
  Some ("NEUTRAL", 9 # 10).

Definition plain_text : pystr := Eval cbv in py "Рынок закрылся".
Definition sanctions_text : pystr :=
  Eval cbv in py "Новые санкции и война".

Definition rows : list (option (list pystr)) :=
  Eval cbv in [Some [py "SBER"; py "COUNTRY_США"; py "GAZP"]; None;
               Some [py "GAZP"]].

End SampleReport.

(** ** Notions used in the statements *)

(** The keys of the dictionary the basic fallback returns. *)
Definition basic_fallback_keys : list string :=
  ["summary"; "sentiment"; "risk_level"; "affected_assets"; "market_impact";
   "short_term_action"; "is_fallback"].

(** The fields of the result record in the specification's data model, under
    the keys the enhanced fallback uses for them. *)
Definition data_model_keys : list string :=
  ["summary"; "sentiment"; "sentiment_score"; "risk_level"; "affected_assets";
   "market_impact"; "recommended_actions"; "confidence"; "analyzed_at";
   "is_fallback"].

(** Small Cyrillic letters of the basic alphabet, U+0430 to U+044F. *)
Definition small_cyrillic (c : N) : Prop := (0x430 <= c <= 0x44F)%N.

(** A result that came from the remote endpoint. *)
Definition from_remote (v : value) : Prop :=
  get_key "is_fallback" v = Some (VBool false).

(** Every cached entry holds a result that came from the remote endpoint. *)
Definition cache_ok (c : gmap string cache_entry) : Prop :=
  forall k e, c !! k = Some e -> from_remote (data e).

(** The test [analysis and "summary" in analysis] together with the item
    assignments that follow it: only a dictionary with a summary passes. *)
Definition usable (extracted : option value) : bool :=
  match extracted with
  | Some (VDict d) => bool_decide (is_Some (d !! "summary"))
  | _ => false
  end.

(** The analyzer and the world once the next request has been counted and
    the pause that precedes every fifth request has been taken. *)
Definition counted (self : analyzer) : analyzer :=
  set_request_count (S (request_count self)) self.

Definition paced (self : analyzer) (w : world) : world :=
  if (S (request_count self) mod 5 =? 0)%nat then sleep 1 w else w.

(** The analysis a successful call returns: the parsed dictionary [d] with the
    three items [analyze_news] assigns, [bs] being the encoded news text. *)
Definition stamped (md5_hexdigest : list N -> string) (isoformat : Z -> pystr)
    (w : world) (bs : list N) (d : gmap string value) : value :=
  VDict (<["is_fallback" := VBool false]>
           (<["text_hash" := VStr (py (substring 0 8 (md5_hexdigest bs)))]>
              (<["analyzed_at" := VStr (isoformat (now w))]> d))).

(** A call left the cache and its file as they were. *)
Definition untouched (self self' : analyzer) (w w' : world) : Prop :=
  cache self' = cache self /\ disk w' = disk w.

(** A call stored its result [r] under [key] and flushed: the cache is the
    old one with the new entry, purged of what is older than seven days,
    and the file holds that cache. *)
Definition stored (key : string) (r : value) (self self' : analyzer)
    (w' : world) : Prop :=
  from_remote r
  /\ cache self' = keep_since (now w' - timedelta_days 7)
                     (<[key := CacheEntry (now w') r]> (cache self))
  /\ disk w' = Some (cache self').

(** The endpoint's reply is a rate-limit response. *)
Definition is_429 (r : reply) : bool :=
  match r with
  | Response status_code _ => (status_code =? 429)%Z
  | _ => false
  end.

(** The age of an entry at the instant the world shows. *)
Definition age (w : world) (e : cache_entry) : Z := now w - timestamp e.

(** The number of times [t] occurs in [items]. *)
Definition mentions_of (t : pystr) (items : list pystr) : nat :=
  length (filter (fun x => x = t) items).

(** Every mention of the rows whose entry is a list. *)
Definition all_mentions (rows : list (option (list pystr))) : list pystr :=
  concat (map (default []) rows).

(** The count a counter holds for a key, [0] when the key is missing. *)
Fixpoint tally (k : pystr) (counts : list (pystr * nat)) : nat :=
  match counts with
  | [] => 0%nat
  | (k', c) :: counts' => if bool_decide (k' = k) then c else tally k counts'
  end.

(** The order of a list sorted by falling count. *)
Definition falling (p q : pystr * nat) : Prop := (q.2 <= p.2)%nat.

(** The result [analyze_multiple_news] stores for an item when no API key
    is set. *)
Definition basic_item (news : news_item) : batch_result :=
  BatchResult news
    (_create_basic_fallback (default [] (item_text news))
       (default [] (item_tickers news)))
    None.

(** How an element of the result list relates to its item: it carries an
    error exactly when an API key is set and the text of the item cannot be
    encoded, and then its analysis is an enhanced fallback for the item. *)
Definition item_recovered (to_lower_full : N -> pystr)
    (final_sigma : pystr -> pystr -> bool) (isoformat : Z -> pystr)
    (self : analyzer) (r : batch_result) : Prop :=
  let text := default [] (item_text (result_news r)) in
  let tickers := default [] (item_tickers (result_news r)) in
  match result_error r with
  | Some _ =>
      key_present (api_key self) = true /\ encode text = None
      /\ exists t, result_analysis r
                   = _create_enhanced_fallback to_lower_full final_sigma
                       isoformat t text tickers
  | None => ~ (key_present (api_key self) = true /\ encode text = None)
  end.

(** * Properties *)

(** ** Searching in texts *)

Lemma starts_with_prefix (needle hay : pystr) :
  starts_with needle hay = true <-> exists rest, hay = needle ++ rest.
Proof.
  revert hay; induction needle as [|a needle IH]; intros hay; simpl.
  - split; [intros _; by exists hay | done].
  - destruct hay as [|b hay].
    + split; [done | intros [rest H]; discriminate].
    + rewrite andb_true_iff, N.eqb_eq, IH. split.
      * intros [-> [rest ->]]. by exists rest.
      * intros [rest H]. injection H as -> ->. split; [done | by exists rest].
Qed.

Lemma find_Some_split (needle hay : pystr) (i : nat) :
  find needle hay = Some i ->
  exists before after,
    hay = before ++ needle ++ after /\ length before = i.
Proof.
  revert i; induction hay as [|c hay IH]; intros i; simpl.
  - destruct (starts_with needle []) eqn:E; [|done].
    intros [= <-]. apply starts_with_prefix in E as [rest E].
    exists [], rest. by split.
  - destruct (starts_with needle (c :: hay)) eqn:E.
    + intros [= <-]. apply starts_with_prefix in E as [rest E].
      exists [], rest. by split.
    + destruct (find needle hay) as [j|] eqn:F; [|done].
      intros [= <-]. destruct (IH j eq_refl) as (before & after & -> & Hlen).
      exists (c :: before), after. split; [done | simpl; by rewrite Hlen].
Qed.

Lemma find_occurrence (needle before after : pystr) :
  exists i, find needle (before ++ needle ++ after) = Some i
            /\ (i <= length before)%nat.
Proof.
  induction before as [|c before IH]; simpl.
  - assert (E : starts_with needle (needle ++ after) = true)
      by (apply starts_with_prefix; by exists after).
    exists 0%nat. split; [|lia].
    destruct (needle ++ after); simpl in *; by rewrite E.
  - destruct (starts_with needle (c :: before ++ needle ++ after)).
    + exists 0%nat. split; [done | lia].
    + destruct IH as (i & -> & Hi). exists (S i). split; [done | lia].
Qed.

(** [needle in hay] holds exactly when [needle] is a substring of [hay]. *)
Lemma contains_substring (needle hay : pystr) :
  contains needle hay = true <->
  exists before after, hay = before ++ needle ++ after.
Proof.
  unfold contains. split.
  - destruct (find needle hay) as [i|] eqn:F; [|done]. intros _.
    destruct (find_Some_split _ _ _ F) as (before & after & H & _). eauto.
  - intros (before & after & ->).
    destruct (find_occurrence needle before after) as (i & -> & _). done.
Qed.

(** The occurrence that [find] reports is the first one. *)
Lemma find_first (needle hay : pystr) (i : nat) :
  find needle hay = Some i ->
  forall j, (j < i)%nat -> starts_with needle (drop j hay) = false.
Proof.
  revert i; induction hay as [|c hay IH]; intros i; simpl.
  - destruct (starts_with needle []); [|done]. intros [= <-] j Hj. lia.
  - destruct (starts_with needle (c :: hay)) eqn:E.
    + intros [= <-] j Hj. lia.
    + destruct (find needle hay) as [k|] eqn:F; [|done].
      intros [= <-] [|j] Hj; simpl; [done|]. apply (IH k eq_refl). lia.
Qed.

Lemma find_None_no_occurrence (needle hay : pystr) :
  find needle hay = None ->
  forall before after, hay <> before ++ needle ++ after.
Proof.
  intros F before after ->.
  destruct (find_occurrence needle before after) as (i & E & _). congruence.
Qed.

Lemma rfind_Some_split (needle hay : pystr) (i : nat) :
  rfind needle hay = Some i ->
  exists before after,
    hay = before ++ needle ++ after /\ length before = i.
Proof.
  revert i; induction hay as [|c hay IH]; intros i; simpl.
  - destruct (starts_with needle []) eqn:E; [|done].
    intros [= <-]. apply starts_with_prefix in E as [rest E].
    exists [], rest. by split.
  - destruct (rfind needle hay) as [j|] eqn:F.
    + intros [= <-]. destruct (IH j eq_refl) as (before & after & -> & Hlen).
      exists (c :: before), after. split; [done | simpl; by rewrite Hlen].
    + destruct (starts_with needle (c :: hay)) eqn:E; [|done].
      intros [= <-]. apply starts_with_prefix in E as [rest E].
      exists [], rest. by split.
Qed.

(** The occurrence that [rfind] reports is the last one. *)
Lemma rfind_last (needle hay : pystr) (i : nat) :
  rfind needle hay = Some i ->
  forall j, (i < j)%nat -> (j < length hay)%nat ->
            starts_with needle (drop j hay) = false.
Proof.
  revert i; induction hay as [|c hay IH]; intros i; simpl.
  - intros _ j _ Hj. lia.
  - destruct (rfind needle hay) as [k|] eqn:F.
    + intros [= <-] [|j] Hij Hj; [lia|]. simpl. apply (IH k eq_refl); lia.
    + destruct (starts_with needle (c :: hay)) eqn:E; [|done].
      intros [= <-] [|j] Hij Hj; [lia|]. simpl.
      clear IH E Hij. revert j Hj.
      induction hay as [|d hay IH']; intros j Hj; simpl in *; [lia|].
      destruct (rfind needle hay) as [k|] eqn:F'; [done|].
      destruct (starts_with needle (d :: hay)) eqn:E'; [done|].
      destruct j as [|j]; simpl; [done|]. apply IH'; [done | lia].
Qed.

(** ** Dictionary literals *)

(** Reads a key of a dictionary literal or of a chain of item assignments. *)
Ltac dict_lookup :=
  unfold get_key;
  repeat rewrite list_to_map_cons;
  repeat (rewrite lookup_insert_ne by (intro; discriminate));
  first [ rewrite lookup_insert_eq; reflexivity
        | rewrite list_to_map_nil; apply lookup_empty
        | apply lookup_empty ].

Lemma count_present_two (words : list pystr) (text w1 w2 : pystr) :
  w1 ∈ words -> w2 ∈ words -> w1 <> w2 ->
  contains w1 text = true -> contains w2 text = true ->
  (2 <= count_present words text)%nat.
Proof.
  unfold count_present. intros H1 H2 Hne C1 C2.
  assert (S1 : [w1; w2] ⊆ filter (λ word, contains word text = true) words).
  { intros x Hx. apply list_elem_of_filter.
    apply elem_of_cons in Hx as [->|Hx]; [done|].
    apply list_elem_of_singleton in Hx as ->. done. }
  assert (ND : NoDup [w1; w2]).
  { apply NoDup_cons. split; [|apply NoDup_singleton].
    intros Hx. apply list_elem_of_singleton in Hx. done. }
  apply (submseteq_length [w1; w2]).
  by apply NoDup_submseteq.
Qed.

Section Lowercase.

Variable to_lower_full : N -> pystr.
Variable final_sigma : pystr -> pystr -> bool.

Local Abbreviation lower := (lower to_lower_full final_sigma).
Local Abbreviation lower_from := (lower_from to_lower_full final_sigma).

Lemma lower_from_app (a before rest : pystr) :
  exists x,
    lower_from before (a ++ rest) = x ++ lower_from (rev a ++ before) rest.
Proof.
  revert before; induction a as [|c a IH]; intros before; simpl.
  - by exists [].
  - destruct (IH (c :: before)) as [x ->].
    exists (lower_at to_lower_full final_sigma before c (a ++ rest) ++ x).
    by rewrite <- !app_assoc.
Qed.

Hypothesis small_cyrillic_fixed :
  forall c, small_cyrillic c -> to_lower_full c = [c].

Lemma lower_from_small (w before rest : pystr) :
  Forall small_cyrillic w ->
  lower_from before (w ++ rest) = w ++ lower_from (rev w ++ before) rest.
Proof.
  intros Hw; revert before; induction Hw as [|c w Hc Hw IH]; intros before.
  - done.
  - simpl. rewrite IH, <- app_assoc. simpl. f_equal.
    unfold lower_at. destruct (N.eqb_spec c 0x3A3) as [->|_].
    + unfold small_cyrillic in Hc. lia.
    + rewrite (small_cyrillic_fixed c Hc). done.
Qed.

(** A word of small Cyrillic letters that occurs in a text occurs in its
    lowercase form too. *)
Lemma contains_lower (w text : pystr) :
  Forall small_cyrillic w ->
  contains w text = true -> contains w (lower text) = true.
Proof.
  intros Hw H. apply contains_substring in H as (a & b & ->).
  apply contains_substring. unfold lower.
  destruct (lower_from_app a [] (w ++ b)) as [x ->].
  rewrite lower_from_small by done.
  by eexists x, _.
Qed.

End Lowercase.

Lemma risk_words_small :
  Forall (Forall small_cyrillic) risk_words.
Proof.
  unfold risk_words, small_cyrillic.
  repeat first [apply Forall_nil_2 | apply Forall_cons_2]; lia.
Qed.

(** ** The fallback constructors *)

Lemma assets_or_default_not_none (tickers : list pystr) :
  assets_or_default tickers <> VNone.
Proof. unfold assets_or_default. by destruct (truthy tickers). Qed.

Lemma sentiment_of_cases (p n : nat) :
  sentiment_of p n = (py "позитивный", 0.5%Q) \/
  sentiment_of p n = (py "негативный", (-0.5)%Q) \/
  sentiment_of p n = (py "нейтральный", 0.0%Q).
Proof.
  unfold sentiment_of.
  destruct (n <? p)%nat; [by left|].
  destruct (p <? n)%nat; [right; by left | right; by right].
Qed.

Section Fallbacks.

Variable to_lower_full : N -> pystr.
Variable final_sigma : pystr -> pystr -> bool.
Variable isoformat : Z -> pystr.

Local Abbreviation lower := (lower to_lower_full final_sigma).
Local Abbreviation _create_enhanced_fallback :=
  (_create_enhanced_fallback to_lower_full final_sigma isoformat).

Lemma enhanced_fallback_is_dict t news_text mentioned_tickers :
  exists d, _create_enhanced_fallback t news_text mentioned_tickers = VDict d.
Proof.
  unfold _create_enhanced_fallback.
  destruct (sentiment_of _ _) as [sentiment score]. eauto.
Qed.

Lemma enhanced_fallback_flag t news_text mentioned_tickers :
  get_key "is_fallback"
    (_create_enhanced_fallback t news_text mentioned_tickers)
  = Some (VBool true).
Proof.
  unfold _create_enhanced_fallback.
  destruct (sentiment_of _ _) as [sentiment score]. dict_lookup.
Qed.

Lemma enhanced_fallback_confidence t news_text mentioned_tickers :
  get_key "confidence"
    (_create_enhanced_fallback t news_text mentioned_tickers)
  = Some (VFloat 0.6%Q).
Proof.
  unfold _create_enhanced_fallback.
  destruct (sentiment_of _ _) as [sentiment score]. dict_lookup.
Qed.

Lemma basic_fallback_flag news_text mentioned_tickers :
  get_key "is_fallback" (_create_basic_fallback news_text mentioned_tickers)
  = Some (VBool true).
Proof. unfold _create_basic_fallback. dict_lookup. Qed.

Lemma basic_fallback_no_confidence news_text mentioned_tickers :
  get_key "confidence" (_create_basic_fallback news_text mentioned_tickers)
  = None.
Proof. unfold _create_basic_fallback. dict_lookup. Qed.

(** C2, as amended.  Both constructors are total and return a dictionary
    with [is_fallback = True] and no null value.  The enhanced fallback
    carries every field of the data model, with a confidence of 0.6, a
    sentiment score within [-1, 1] and the time of its creation; the basic
    fallback carries exactly its seven keys, among which there is no
    sentiment score, confidence or creation time. *)
Theorem fallbacks_populated
    (t : Z) (news_text : pystr) (mentioned_tickers : list pystr) :
  (exists d,
      _create_basic_fallback news_text mentioned_tickers = VDict d
      /\ dom d = list_to_set basic_fallback_keys
      /\ d !! "is_fallback" = Some (VBool true)
      /\ (forall k v, d !! k = Some v -> v <> VNone))
  /\
  (exists d,
      _create_enhanced_fallback t news_text mentioned_tickers = VDict d
      /\ (forall k, k ∈ data_model_keys -> is_Some (d !! k))
      /\ d !! "is_fallback" = Some (VBool true)
      /\ d !! "confidence" = Some (VFloat 0.6%Q)
      /\ d !! "analyzed_at" = Some (VStr (isoformat t))
      /\ (exists q, d !! "sentiment_score" = Some (VFloat q)
                    /\ (-1 <= q <= 1)%Q)
      /\ (forall k v, d !! k = Some v -> v <> VNone)).
Proof.
  split.
  - eexists. split; [reflexivity|]. split; [|split].
    + rewrite dom_list_to_map_L. reflexivity.
    + pose proof (basic_fallback_flag news_text mentioned_tickers) as H.
      exact H.
    + intros k v H. apply elem_of_list_to_map_2 in H.
      pose proof (assets_or_default_not_none mentioned_tickers).
      repeat (apply elem_of_cons in H as [[= -> ->]|H]; [done|]).
      by apply elem_of_nil in H.
  - unfold _create_enhanced_fallback.
    destruct (sentiment_of_cases
                (count_present positive_words (lower news_text))
                (count_present negative_words (lower news_text)))
      as [E|[E|E]]; rewrite E;
      (eexists; split; [reflexivity|]);
      (split; [|split; [|split; [|split; [|split]]]]).
    all: try (intros k Hk; unfold data_model_keys in Hk;
              repeat (apply elem_of_cons in Hk as [->|Hk];
                      [eexists; dict_lookup|]);
              by apply elem_of_nil in Hk).
    all: try dict_lookup.
    all: try (eexists; split; [dict_lookup | split; discriminate]).
    all: intros k v H; apply elem_of_list_to_map_2 in H;
      pose proof (assets_or_default_not_none mentioned_tickers);
      repeat (apply elem_of_cons in H as [[= -> ->]|H];
              [try done; by case_decide|]);
      by apply elem_of_nil in H.
Qed.


End Fallbacks.

(** ** JSON extraction *)

Section Extraction.

Variable json_loads : pystr -> option value.

Local Abbreviation _extract_json_from_response :=
  (_extract_json_from_response json_loads).

(** A fenced candidate is what stands between the leftmost opening fence
    and the first closing fence after it. *)
Lemma search_fenced_Some (opener text c : pystr) :
  search_fenced opener text = Some c ->
  exists pre post,
    text = pre ++ opener ++ c ++ fence_close ++ post
    /\ find opener text = Some (length pre)
    /\ find fence_close (c ++ fence_close ++ post) = Some (length c).
Proof.
  unfold search_fenced.
  destruct (find opener text) as [i|] eqn:F; [|done].
  destruct (find fence_close (drop (i + length opener) text)) as [j|] eqn:G;
    [|done].
  intros [= <-].
  destruct (find_Some_split _ _ _ F) as (pre & rest & -> & Hi).
  destruct (find_Some_split _ _ _ G) as (mid & post & Hrest & Hj).
  assert (D : drop (i + length opener) (pre ++ opener ++ rest) = rest).
  { rewrite app_assoc, drop_app_length'; [done|].
    rewrite length_app. lia. }
  rewrite D in *. subst rest.
  exists pre, post.
  rewrite take_app_length' by done.
  repeat split; [by rewrite Hi | by rewrite Hj].
Qed.

(** No fenced candidate: the text has no opening fence that is followed
    by a closing fence. *)
Lemma search_fenced_None (opener text : pystr) :
  search_fenced opener text = None ->
  forall pre c post, text <> pre ++ opener ++ c ++ fence_close ++ post.
Proof.
  unfold search_fenced. intros H pre c post ->.
  destruct (find opener (pre ++ opener ++ c ++ fence_close ++ post))
    as [i|] eqn:F.
  - destruct (find fence_close _) as [j|] eqn:G; [done|].
    destruct (find_Some_split _ _ _ F) as (pre' & rest & E & Hi).
    destruct (find_occurrence opener pre (c ++ fence_close ++ post))
      as (i' & F' & Hle).
    rewrite F in F'. injection F' as <-.
    (* the first opener ends no later than the one at [pre] *)
    assert (D : exists x, drop (i + length opener)
                   (pre ++ opener ++ c ++ fence_close ++ post)
                 = x ++ fence_close ++ post).
    { exists (drop (i + length opener) (pre ++ opener ++ c)).
      replace (pre ++ opener ++ c ++ fence_close ++ post)
        with ((pre ++ opener ++ c) ++ fence_close ++ post)
        by (by rewrite <- !app_assoc).
      rewrite drop_app_le; [done|]. rewrite !length_app. lia. }
    destruct D as [x D]. rewrite D in G.
    by apply (find_None_no_occurrence _ _ G x post).
  - by apply (find_None_no_occurrence _ _ F pre
                (c ++ fence_close ++ post)).
Qed.

(** The brace candidate runs from the first opening brace to the last
    closing brace of the text. *)
Lemma brace_slice_Some (text c : pystr) :
  brace_slice text = Some c ->
  exists pre mid post,
    text = pre ++ c ++ post
    /\ c = brace_open ++ mid ++ brace_close
    /\ contains brace_open pre = false
    /\ contains brace_close post = false.
Proof.
  unfold brace_slice.
  destruct (find brace_open text) as [start|] eqn:F; [|done].
  destruct (rfind brace_close text) as [end_|] eqn:R; [|done].
  destruct (Nat.ltb_spec start end_) as [Hlt|]; [|done].
  intros [= <-].
  destruct (find_Some_split _ _ _ F) as (pre & rest & E1 & Hs).
  destruct (rfind_Some_split _ _ _ R) as (pre2 & post & E2 & He).
  assert (Hmid : exists mid, pre2 = pre ++ brace_open ++ mid).
  { rewrite E1 in E2.
    apply app_eq_inv in E2 as [(k & Hk & _)|(k & Hk & Hk')].
    - apply (f_equal length) in Hk. rewrite length_app in Hk. lia.
    - destruct k as [|x k].
      + rewrite app_nil_r in Hk. subst pre2. lia.
      + injection Hk' as <- _. exists k. by rewrite Hk. }
  destruct Hmid as [mid ->].
  exists pre, mid, post.
  assert (Et : text = pre ++ (brace_open ++ mid ++ brace_close) ++ post).
  { rewrite E2. by rewrite <- !app_assoc. }
  assert (Ec : take (end_ + 1 - start) (drop start text)
               = brace_open ++ mid ++ brace_close).
  { rewrite Et at 1. rewrite drop_app_length' by done.
    rewrite take_app_length'; [done|].
    rewrite <- He, <- Hs, !length_app. simpl. lia. }
  rewrite Ec. repeat split; [done | |].
  - destruct (contains brace_open pre) eqn:C; [|done].
    apply contains_substring in C as (a & b & ->).
    destruct (find_occurrence brace_open a (b ++ brace_open ++ rest))
      as (i & Fi & Hi).
    rewrite E1 in F. rewrite <- !app_assoc in F. rewrite Fi in F.
    injection F as <-. rewrite length_app in Hs. simpl in Hs. lia.
  - destruct (contains brace_close post) eqn:C; [|done].
    apply contains_substring in C as (a & b & ->).
    pose proof (rfind_last _ _ _ R (end_ + 1 + length a)) as L.
    rewrite E2 in L.
    replace ((pre ++ brace_open ++ mid) ++ brace_close ++ a ++ brace_close ++ b)
      with (((pre ++ brace_open ++ mid) ++ brace_close ++ a) ++ brace_close ++ b)
      in L by (by rewrite <- !app_assoc).
    rewrite drop_app_length' in L
      by (rewrite length_app, <- He; simpl; rewrite length_app; simpl; lia).
    change (starts_with brace_close (brace_close ++ b)) with true in L.
    assert (true = false); [|done]. apply L; [lia|].
    rewrite !length_app. simpl. rewrite !length_app in He. simpl in He. lia.
Qed.

(** No brace candidate: the text has no opening brace that is followed
    by a closing brace. *)
Lemma brace_slice_None (text : pystr) :
  brace_slice text = None ->
  forall pre mid post,
    text <> pre ++ brace_open ++ mid ++ brace_close ++ post.
Proof.
  unfold brace_slice. intros H pre mid post ->.
  destruct (find_occurrence brace_open pre (mid ++ brace_close ++ post))
    as (i & F & Hi).
  rewrite F in H.
  destruct (rfind brace_close _) as [j|] eqn:R.
  - destruct (Nat.ltb_spec i j) as [|Hge]; [done|].
    pose proof (rfind_last _ _ _ R (length (pre ++ brace_open ++ mid))) as L.
    replace (pre ++ brace_open ++ mid ++ brace_close ++ post)
      with ((pre ++ brace_open ++ mid) ++ brace_close ++ post)
      in L by (by rewrite <- !app_assoc).
    rewrite drop_app_length in L.
    change (starts_with brace_close (brace_close ++ post)) with true in L.
    assert (true = false); [|done].
    apply L; rewrite !length_app; simpl; lia.
  - clear H F. revert R.
    replace (pre ++ brace_open ++ mid ++ brace_close ++ post)
      with ((pre ++ brace_open ++ mid) ++ brace_close ++ post)
      by (by rewrite <- !app_assoc).
    generalize (pre ++ brace_open ++ mid). intros l.
    induction l as [|x l IH]; simpl.
    + by destruct (rfind brace_close post).
    + destruct (rfind brace_close (l ++ _)); [done|]. intros _. by apply IH.
Qed.

(** The manual search after the loop repeats the third pattern, so it is
    reached only when it too finds nothing. *)
Lemma extract_loop_patterns (text : pystr) :
  _extract_json_from_response text =
    match search_fenced fence_json text with
    | Some c => json_loads c
    | None =>
        match search_fenced fence_plain text with
        | Some c => json_loads c
        | None =>
            match search_braces text with
            | Some c => json_loads c
            | None => None
            end
        end
    end.
Proof.
  unfold _extract_json_from_response, json_patterns. simpl.
  destruct (search_fenced fence_json text); [done|].
  destruct (search_fenced fence_plain text); [done|].
  unfold search_braces. by destruct (brace_slice text).
Qed.

End Extraction.

(** ** Purging and flushing the cache *)

Lemma keep_since_lookup (cutoff : Z) (c : gmap string cache_entry)
    (k : string) (e : cache_entry) :
  keep_since cutoff c !! k = Some e <-> c !! k = Some e /\ cutoff <= timestamp e.
Proof.
  unfold keep_since. rewrite map_lookup_filter_Some. simpl. intuition lia.
Qed.

Lemma keep_since_ok (cutoff : Z) (c : gmap string cache_entry) :
  cache_ok c -> cache_ok (keep_since cutoff c).
Proof.
  intros H k e Hk. apply keep_since_lookup in Hk as [Hk _]. by apply (H k).
Qed.

Lemma insert_ok (c : gmap string cache_entry) (k : string) (t : Z) (v : value) :
  cache_ok c -> from_remote v -> cache_ok (<[k := CacheEntry t v]> c).
Proof.
  intros H Hv k' e. rewrite lookup_insert. case_decide.
  - intros [= <-]. done.
  - apply H.
Qed.

(** ** One call of [analyze_news] *)

Section Analyzer.

Variable to_lower_full : N -> pystr.
Variable final_sigma : pystr -> pystr -> bool.
Variable md5_hexdigest : list N -> string.
Variable isoformat : Z -> pystr.
Variable json_loads : pystr -> option value.
Variable remote : nat -> reply.

Local Abbreviation analyze :=
  (analyze_news to_lower_full final_sigma md5_hexdigest isoformat json_loads
                remote).
Local Abbreviation enhanced :=
  (enhanced_fallback to_lower_full final_sigma isoformat).
Local Abbreviation on_success :=
  (on_success_status to_lower_full final_sigma md5_hexdigest isoformat
                     json_loads).
Local Abbreviation cache_key_of := (_get_cache_key md5_hexdigest).
Local Abbreviation extract := (_extract_json_from_response json_loads).

Local Abbreviation stamped := (stamped md5_hexdigest isoformat).

Lemma stamped_from_remote w bs d : from_remote (stamped w bs d).
Proof. unfold from_remote, stamped. simpl. apply lookup_insert_eq. Qed.

Lemma cache_key_encode text key :
  cache_key_of text "news" = Some key ->
  exists bs, encode text = Some bs /\ key = "news_" +:+ md5_hexdigest bs.
Proof.
  unfold _get_cache_key. destruct (encode text) as [bs|]; [|done].
  intros [= <-]. by exists bs.
Qed.

(** What the branch for a 200 response does: an unusable text gives the
    enhanced fallback; a usable one gives the stamped analysis, stored and
    flushed when the cache is in use. *)
Lemma on_success_cases self w news_text tickers use_cache key ai_text bs :
  encode news_text = Some bs ->
  on_success self w news_text tickers use_cache key ai_text =
    match extract ai_text with
    | Some (VDict d) =>
        if usable (Some (VDict d)) then
          if use_cache && cache_enabled self then
            Returned (stamped w bs d)
              (set_cache
                 (keep_since (now w - timedelta_days 7)
                    (<[key := CacheEntry (now w) (stamped w bs d)]> (cache self)))
                 self)
              (dump
                 (keep_since (now w - timedelta_days 7)
                    (<[key := CacheEntry (now w) (stamped w bs d)]> (cache self)))
                 w)
          else Returned (stamped w bs d) self w
        else enhanced self w news_text tickers
    | _ => enhanced self w news_text tickers
    end.
Proof.
  intros E. unfold on_success_status. rewrite E.
  destruct (extract ai_text) as [[| | | | | |d]|]; try done.
  simpl. destruct (bool_decide _); [|done].
  destruct use_cache; simpl; [|done].
  unfold _save_cache. simpl.
  destruct (cache_enabled self) eqn:C; simpl; [|done].
  try rewrite C. simpl. done.
Qed.

Lemma on_success_unusable self w news_text tickers use_cache key ai_text :
  usable (extract ai_text) = false ->
  on_success self w news_text tickers use_cache key ai_text
  = enhanced self w news_text tickers.
Proof.
  unfold on_success_status, usable.
  destruct (extract ai_text) as [[| | | | | |d]|]; try done.
  by intros ->.
Qed.

Lemma on_success_not_raised self w news_text tickers use_cache key ai_text :
  forall e s' w',
    on_success self w news_text tickers use_cache key ai_text
    <> Raised e s' w'.
Proof.
  intros e s' w'. unfold on_success_status, enhanced_fallback.
  destruct (extract ai_text) as [[| | | | | |d]|]; try done.
  destruct (bool_decide _); [|done].
  destruct (encode news_text); [|done].
  destruct (use_cache && cache_enabled self); [|done].
  by destruct (_save_cache _ _).
Qed.

(** With an API key and an encodable text, [analyze_news] never raises. *)
Lemma analyze_not_raised fuel self w news_text tickers use_cache key :
  key_present (api_key self) = true ->
  cache_key_of news_text "news" = Some key ->
  forall e s' w',
    analyze fuel self w news_text tickers use_cache <> Raised e s' w'.
Proof.
  intros K E e s' w'. destruct fuel as [|fuel]; simpl; [done|].
  rewrite K, E. simpl.
  destruct (cache_lookup _ _ _ _); [done|].
  destruct (remote _) as [| | |status body]; try done.
  destruct (status =? 200)%Z.
  { destruct body; [apply on_success_not_raised | done]. }
  destruct (status =? 429)%Z; [|done].
  by destruct (_analyze_with_retry _ _ _ _ _ _ _ _ _).
Qed.

(** The unfolding of one call.  On a 429 response the retry loop returns at
    its first attempt whatever the nested call returns, after sleeping two
    seconds and then one. *)
Lemma analyze_news_step fuel self w news_text tickers use_cache key :
  key_present (api_key self) = true ->
  cache_key_of news_text "news" = Some key ->
  analyze (S fuel) self w news_text tickers use_cache =
    match cache_lookup self w key use_cache with
    | Some cached_data => Returned cached_data self w
    | None =>
        let self1 := counted self in
        let w1 := paced self w in
        match remote (request_count self1) with
        | Response status_code body =>
            if (status_code =? 200)%Z then
              match body with
              | Some ai_text =>
                  on_success self1 w1 news_text (default [] tickers)
                             use_cache key ai_text
              | None => enhanced self1 w1 news_text (default [] tickers)
              end
            else if (status_code =? 429)%Z then
              analyze fuel self1 (sleep 1 (sleep 2 w1)) news_text
                      (Some (default [] tickers)) false
            else enhanced self1 w1 news_text (default [] tickers)
        | _ => enhanced self1 w1 news_text (default [] tickers)
        end
    end.
Proof.
  intros K E. simpl. rewrite K, E. simpl.
  destruct (cache_lookup _ _ _ _); [done|].
  fold (counted self). fold (paced self w).
  destruct (remote _) as [| | |status body]; try done.
  destruct (status =? 200)%Z; [done|].
  destruct (status =? 429)%Z; [|done].
  unfold _analyze_with_retry. simpl.
  pose proof (analyze_not_raised fuel (counted self)
                (sleep 1 (sleep 2 (paced self w))) news_text
                (Some (default [] tickers)) false key K E) as NR.
  change (2 ^ Z.of_nat 0) with 1.
  destruct (analyze fuel (counted self) _ _ _ _) as [r s1 w1|e s1 w1|];
    [done | by destruct (NR e s1 w1) | done].
Qed.

Lemma paced_now self w : now w <= now (paced self w).
Proof.
  unfold paced. destruct (_ =? _)%nat; simpl; unfold seconds; lia.
Qed.

Lemma paced_disk self w : disk (paced self w) = disk w.
Proof. unfold paced. by destruct (_ =? _)%nat. Qed.

(** What a call that returns has done to the analyzer and the world. *)
Lemma analyze_news_effect fuel :
  forall self w news_text tickers use_cache r self' w',
    analyze fuel self w news_text tickers use_cache = Returned r self' w' ->
    api_key self' = api_key self
    /\ cache_enabled self' = cache_enabled self
    /\ (request_count self <= request_count self')%nat
    /\ now w <= now w'
    /\ (untouched self self' w w'
        \/ (use_cache = true /\ cache_enabled self = true
            /\ exists key, cache_key_of news_text "news" = Some key
                           /\ stored key r self self' w')).
Proof.
  induction fuel as [|fuel IH]; intros self w news_text tickers use_cache
    r self' w'; [done|].
  destruct (key_present (api_key self)) eqn:K.
  2: { simpl. rewrite K. simpl. intros [= <- <- <-].
       repeat split; try done; try lia. by left. }
  destruct (cache_key_of news_text "news") as [key|] eqn:E.
  2: { simpl. rewrite K, E. done. }
  rewrite (analyze_news_step _ _ _ _ _ _ key K E).
  destruct (cache_lookup self w key use_cache).
  { intros [= <- <- <-]. repeat split; try done; try lia. by left. }
  assert (Fallback : enhanced (counted self) (paced self w) news_text
                       (default [] tickers) = Returned r self' w' ->
          api_key self' = api_key self
          /\ cache_enabled self' = cache_enabled self
          /\ (request_count self <= request_count self')%nat
          /\ now w <= now w'
          /\ (untouched self self' w w'
              \/ (use_cache = true /\ cache_enabled self = true
                  /\ exists key, cache_key_of news_text "news" = Some key
                                 /\ stored key r self self' w'))).
  { intros [= <- <- <-]. simpl. repeat split; try done; try lia.
    - apply paced_now.
    - left. split; [done | apply paced_disk]. }
  rewrite E in Fallback.
  simpl. destruct (remote _) as [| | |status body]; try exact Fallback.
  destruct (status =? 200)%Z.
  - destruct body as [ai_text|]; [|exact Fallback].
    destruct (cache_key_encode _ _ E) as (bs & Ebs & _).
    rewrite (on_success_cases _ _ _ _ _ _ _ bs Ebs).
    destruct (extract ai_text) as [[| | | | | |d]|]; try exact Fallback.
    destruct (usable _); [|exact Fallback].
    destruct use_cache; simpl.
    + destruct (cache_enabled self) eqn:C.
      * intros [= <- <- <-]. simpl. repeat split; try done; try lia.
        -- apply paced_now.
        -- right. repeat split; try done. exists key. split; [done|].
           split; [apply stamped_from_remote | by split].
      * intros [= <- <- <-]. simpl. repeat split; try done; try lia.
        -- apply paced_now.
        -- left. split; [done | apply paced_disk].
    + intros [= <- <- <-]. simpl. repeat split; try done; try lia.
      * apply paced_now.
      * left. split; [done | apply paced_disk].
  - destruct (status =? 429)%Z; [|exact Fallback].
    intros H. apply IH in H as (A & B & C & D & [[U1 U2]|(? & _)]); [|done].
    simpl in *. pose proof (paced_now self w). unfold seconds in D.
    repeat split; try done; try lia.
    left. split; [done|]. rewrite U2. apply paced_disk.
Qed.

(** A call that raises has changed nothing. *)
Lemma analyze_news_raised fuel self w news_text tickers use_cache e self' w' :
  analyze fuel self w news_text tickers use_cache = Raised e self' w' ->
  self' = self /\ w' = w /\ encode news_text = None.
Proof.
  destruct fuel as [|fuel]; [done|].
  destruct (key_present (api_key self)) eqn:K.
  2: { simpl. rewrite K. done. }
  destruct (cache_key_of news_text "news") as [key|] eqn:E.
  { intros H. by apply (analyze_not_raised _ _ _ _ _ _ key K E) in H. }
  simpl. rewrite K, E. simpl. intros [= _ <- <-].
  unfold _get_cache_key in E. by destruct (encode news_text).
Qed.

(** A call that misses the cache sends at least one request. *)
Lemma analyze_news_miss fuel self w news_text tickers use_cache key
    r self' w' :
  key_present (api_key self) = true ->
  cache_key_of news_text "news" = Some key ->
  cache_lookup self w key use_cache = None ->
  analyze (S fuel) self w news_text tickers use_cache = Returned r self' w' ->
  (request_count self < request_count self')%nat.
Proof.
  intros K E M. rewrite (analyze_news_step _ _ _ _ _ _ key K E), M. simpl.
  assert (Fallback : enhanced (counted self) (paced self w) news_text
                       (default [] tickers) = Returned r self' w' ->
                     (request_count self < request_count self')%nat).
  { intros [= <- <- <-]. simpl. lia. }
  destruct (remote _) as [| | |status body]; try exact Fallback.
  destruct (status =? 200)%Z.
  - destruct body as [ai_text|]; [|exact Fallback].
    destruct (cache_key_encode _ _ E) as (bs & Ebs & _).
    rewrite (on_success_cases _ _ _ _ _ _ _ bs Ebs).
    destruct (extract ai_text) as [[| | | | | |d]|]; try exact Fallback.
    destruct (usable _); [|exact Fallback].
    destruct (use_cache && _); intros [= <- <- <-]; simpl; lia.
  - destruct (status =? 429)%Z; [|exact Fallback].
    intros H. apply analyze_news_effect in H as (_ & _ & C & _).
    simpl in C. lia.
Qed.

(** What a call can return when an API key is set: a result that came from
    the remote endpoint (fresh or cached), or an enhanced fallback. *)
Lemma analyze_news_result fuel :
  forall self w news_text tickers use_cache r self' w',
    key_present (api_key self) = true ->
    cache_ok (cache self) ->
    analyze fuel self w news_text tickers use_cache = Returned r self' w' ->
    from_remote r
    \/ exists t tk,
         r = _create_enhanced_fallback to_lower_full final_sigma isoformat
               t news_text tk.
Proof.
  induction fuel as [|fuel IH]; intros self w news_text tickers use_cache
    r self' w' K OK; [done|].
  destruct (cache_key_of news_text "news") as [key|] eqn:E.
  2: { simpl. rewrite K, E. done. }
  rewrite (analyze_news_step _ _ _ _ _ _ key K E).
  destruct (cache_lookup self w key use_cache) as [cached|] eqn:L.
  { intros [= <- <- <-]. left. unfold cache_lookup in L.
    destruct (use_cache && cache_enabled self); [|done].
    destruct (cache self !! key) as [e|] eqn:G; [|done].
    destruct (bool_decide _); [|done]. injection L as <-.
    by apply (OK key). }
  simpl.
  assert (Fallback : enhanced (counted self) (paced self w) news_text
                       (default [] tickers) = Returned r self' w' ->
          from_remote r
          \/ exists t tk,
               r = _create_enhanced_fallback to_lower_full final_sigma
                     isoformat t news_text tk).
  { intros [= <- <- <-]. right. eauto. }
  destruct (remote _) as [| | |status body]; try exact Fallback.
  destruct (status =? 200)%Z.
  - destruct body as [ai_text|]; [|exact Fallback].
    destruct (cache_key_encode _ _ E) as (bs & Ebs & _).
    rewrite (on_success_cases _ _ _ _ _ _ _ bs Ebs).
    destruct (extract ai_text) as [[| | | | | |d]|]; try exact Fallback.
    destruct (usable _); [|exact Fallback].
    destruct (use_cache && _); intros [= <- <- <-]; left;
      apply stamped_from_remote.
  - destruct (status =? 429)%Z; [|exact Fallback].
    intros H. by apply IH in H.
Qed.

(** Against an endpoint that answers 429 without end, a call that reaches
    the endpoint does not return, however deep the nesting may go. *)
Lemma analyze_news_rate_limited fuel :
  forall self w news_text tickers use_cache key,
    (forall n, is_429 (remote n) = true) ->
    key_present (api_key self) = true ->
    cache_key_of news_text "news" = Some key ->
    cache_lookup self w key use_cache = None ->
    analyze fuel self w news_text tickers use_cache = Unfinished.
Proof.
  induction fuel as [|fuel IH]; intros self w news_text tickers use_cache
    key R K E M; [done|].
  rewrite (analyze_news_step _ _ _ _ _ _ key K E), M. simpl.
  pose proof (R (S (request_count self))) as R1. unfold is_429 in R1.
  destruct (remote _) as [| | |status body]; try done.
  rewrite R1.
  destruct (Z.eqb_spec status 200) as [->|_]; [done|].
  by apply (IH _ _ _ _ _ key).
Qed.

(** Once the endpoint stops answering 429, the call returns: after [k]
    rate-limit responses it has sent [k + 1] requests. *)
Lemma analyze_news_returns k :
  forall fuel self w news_text tickers use_cache key,
    key_present (api_key self) = true ->
    cache_key_of news_text "news" = Some key ->
    cache_lookup self w key use_cache = None ->
    (forall i, (i < k)%nat ->
               is_429 (remote (S (request_count self) + i)) = true) ->
    is_429 (remote (S (request_count self) + k)) = false ->
    exists r self' w',
      analyze (S k + fuel) self w news_text tickers use_cache
      = Returned r self' w'
      /\ request_count self' = (request_count self + S k)%nat.
Proof.
  induction k as [|k IH]; intros fuel self w news_text tickers use_cache key
    K E M Busy Free.
  - rewrite (analyze_news_step _ _ _ _ _ _ key K E), M. simpl.
    rewrite Nat.add_0_r in Free. unfold is_429 in Free.
    assert (Fallback : exists r self' w',
               enhanced (counted self) (paced self w) news_text
                 (default [] tickers) = Returned r self' w'
               /\ request_count self' = (request_count self + 1)%nat).
    { eexists _, _, _. split; [reflexivity|]. simpl. lia. }
    destruct (remote _) as [| | |status body]; try exact Fallback.
    rewrite Free.
    destruct (status =? 200)%Z; [|exact Fallback].
    destruct body as [ai_text|]; [|exact Fallback].
    destruct (cache_key_encode _ _ E) as (bs & Ebs & _).
    rewrite (on_success_cases _ _ _ _ _ _ _ bs Ebs).
    destruct (extract ai_text) as [[| | | | | |d]|]; try exact Fallback.
    destruct (usable _); [|exact Fallback].
    destruct (use_cache && _); eexists _, _, _;
      (split; [reflexivity | simpl; lia]).
  - change (S (S k) + fuel)%nat with (S (S k + fuel)).
    rewrite (analyze_news_step _ _ _ _ _ _ key K E), M. simpl.
    pose proof (Busy 0%nat ltac:(lia)) as B0.
    rewrite Nat.add_0_r in B0. unfold is_429 in B0.
    destruct (remote (S (request_count self))) as [| | |status body];
      try done.
    rewrite B0.
    destruct (Z.eqb_spec status 200) as [->|_]; [done|].
    destruct (IH fuel (counted self) (sleep 1 (sleep 2 (paced self w)))
                news_text (Some (default [] tickers)) false key)
      as (r & self' & w' & H & Hc); try done.
    + intros i Hi. pose proof (Busy (S i) ltac:(lia)) as B.
      simpl in B |- *. rewrite Nat.add_succ_r in B. exact B.
    + simpl in Free |- *. rewrite Nat.add_succ_r in Free. exact Free.
    + exists r, self', w'. split; [exact H|]. simpl in Hc. lia.
Qed.

(** *** Claims about the remote path *)

(** C3, as amended.  The candidates are tried in order (block fenced as
    json, plain fenced block, first opening to last closing brace), and the
    first candidate that matches is the only one parsed: its parse, failed
    or not, is the result of the extraction, and later candidates are not
    tried.  A response is usable exactly when the extraction gives a
    dictionary with a summary; a usable response gives the parsed analysis
    with its three added items, any other gives the enhanced fallback. *)
Theorem extraction_first_match (text : pystr) :
  (forall c, search_fenced fence_json text = Some c ->
             extract text = json_loads c)
  /\ (forall c, search_fenced fence_json text = None ->
                search_fenced fence_plain text = Some c ->
                extract text = json_loads c)
  /\ (forall c, search_fenced fence_json text = None ->
                search_fenced fence_plain text = None ->
                search_braces text = Some c ->
                extract text = json_loads c)
  /\ (search_fenced fence_json text = None ->
      search_fenced fence_plain text = None ->
      search_braces text = None ->
      extract text = None)
  /\ (forall self w news_text tickers use_cache key,
        usable (extract text) = false ->
        on_success self w news_text tickers use_cache key text
        = enhanced self w news_text tickers)
  /\ (forall self w news_text tickers use_cache key bs d,
        encode news_text = Some bs ->
        extract text = Some (VDict d) -> is_Some (d !! "summary") ->
        returned (on_success self w news_text tickers use_cache key text)
        = Some (stamped w bs d)).
Proof.
  pose proof (extract_loop_patterns json_loads text) as P.
  split; [|split; [|split; [|split; [|split]]]].
  - intros c H. by rewrite P, H.
  - intros c H1 H2. by rewrite P, H1, H2.
  - intros c H1 H2 H3. by rewrite P, H1, H2, H3.
  - intros H1 H2 H3. by rewrite P, H1, H2, H3.
  - intros. by apply on_success_unusable.
  - intros self w news_text tickers use_cache key bs d Ebs Ex Hs.
    rewrite (on_success_cases _ _ _ _ _ _ _ bs Ebs), Ex. simpl.
    rewrite bool_decide_eq_true_2 by done.
    by destruct (use_cache && cache_enabled self).
Qed.

(** C5, as amended.  Without an API key every call returns the basic
    fallback and changes nothing; with an API key no call returns a basic
    fallback (the cache holding remote results only).  The folder
    identifier plays no part in the choice. *)
Theorem basic_fallback_iff_no_api_key
    (fuel : nat) (self : analyzer) (w : world) (news_text : pystr)
    (tickers : option (list pystr)) (use_cache : bool) :
  (key_present (api_key self) = false ->
   analyze (S fuel) self w news_text tickers use_cache
   = Returned (_create_basic_fallback news_text (default [] tickers)) self w)
  /\ (key_present (api_key self) = true ->
      cache_ok (cache self) ->
      forall r self' w',
        analyze (S fuel) self w news_text tickers use_cache
        = Returned r self' w' ->
        forall text' tickers', r <> _create_basic_fallback text' tickers').
Proof.
  split.
  - intros K. simpl. by rewrite K.
  - intros K OK r self' w' H text' tickers' ->.
    apply analyze_news_result in H as [H|(t & tk & H)]; [| |done|done].
    + unfold from_remote in H.
      rewrite (basic_fallback_flag text' tickers') in H. done.
    + apply (f_equal (get_key "confidence")) in H.
      rewrite enhanced_fallback_confidence, basic_fallback_no_confidence in H.
      done.
Qed.


(** C9.  A call that obtains a usable response stores its result under the
    key of the text; a second call for the same text, made less than a day
    later, returns that very result from the cache and sends nothing. *)
Theorem cache_round_trip
    (fuel : nat) (self : analyzer) (w : world) (news_text : pystr)
    (tickers tickers' : option (list pystr)) (key : string)
    (ai_text : pystr) (d : gmap string value) (delta : Z) :
  key_present (api_key self) = true ->
  cache_enabled self = true ->
  cache_key_of news_text "news" = Some key ->
  cache_lookup self w key true = None ->
  remote (S (request_count self)) = Response 200 (Some ai_text) ->
  extract ai_text = Some (VDict d) ->
  is_Some (d !! "summary") ->
  0 <= delta < timedelta_days 1 ->
  exists r self1 w1,
    analyze 1 self w news_text tickers true = Returned r self1 w1
    /\ cache self1 !! key = Some (CacheEntry (now w1) r)
    /\ analyze (S fuel) self1 (elapse delta w1) news_text tickers' true
       = Returned r self1 (elapse delta w1).
Proof.
  intros K C E M R X Hs Hd.
  destruct (cache_key_encode _ _ E) as (bs & Ebs & _).
  assert (First :
    analyze 1 self w news_text tickers true
    = Returned (stamped (paced self w) bs d)
        (set_cache
           (keep_since (now (paced self w) - timedelta_days 7)
              (<[key := CacheEntry (now (paced self w))
                          (stamped (paced self w) bs d)]> (cache self)))
           (counted self))
        (dump
           (keep_since (now (paced self w) - timedelta_days 7)
              (<[key := CacheEntry (now (paced self w))
                          (stamped (paced self w) bs d)]> (cache self)))
           (paced self w))).
  { rewrite (analyze_news_step _ _ _ _ _ _ key K E), M. simpl.
    rewrite R. simpl.
    rewrite (on_success_cases _ _ _ _ _ _ _ bs Ebs), X. simpl.
    rewrite bool_decide_eq_true_2 by done. by rewrite C. }
  eexists _, _, _. split; [exact First|].
  assert (G : keep_since (now (paced self w) - timedelta_days 7)
                (<[key := CacheEntry (now (paced self w))
                            (stamped (paced self w) bs d)]> (cache self))
              !! key
              = Some (CacheEntry (now (paced self w))
                        (stamped (paced self w) bs d))).
  { apply keep_since_lookup. rewrite lookup_insert_eq. split; [done|].
    simpl. unfold timedelta_days. lia. }
  split; [exact G|].
  rewrite (analyze_news_step _ _ _ _ _ _ key); [|exact K|exact E].
  unfold cache_lookup. simpl. rewrite C. simpl. rewrite G. simpl.
  rewrite bool_decide_eq_true_2; [done | lia].
Qed.

Lemma analyze_news_keeps_ok fuel self w news_text tickers use_cache self' :
  cache_ok (cache self) ->
  final_analyzer (analyze fuel self w news_text tickers use_cache)
  = Some self' ->
  cache_ok (cache self').
Proof.
  intros OK F.
  destruct (analyze fuel self w news_text tickers use_cache)
    as [r s1 w1|e s1 w1|] eqn:H; simpl in F; [| |done].
  - injection F as <-.
    apply analyze_news_effect in H as (_ & _ & _ & _ & [[U _]|S]).
    + by rewrite U.
    + destruct S as (_ & _ & key & _ & Hr & -> & _).
      apply keep_since_ok. by apply insert_ok.
  - injection F as <-.
    apply analyze_news_raised in H as (-> & _). done.
Qed.

Lemma retried_call_untouched fuel self w news_text tickers use_cache key
    body r self' w' :
  key_present (api_key self) = true ->
  cache_key_of news_text "news" = Some key ->
  cache_lookup self w key use_cache = None ->
  remote (S (request_count self)) = Response 429 body ->
  analyze (S fuel) self w news_text tickers use_cache = Returned r self' w' ->
  untouched self self' w w'.
Proof.
  intros K E M R H.
  rewrite (analyze_news_step _ _ _ _ _ _ key K E), M in H. simpl in H.
  rewrite R in H. simpl in H.
  apply analyze_news_effect in H as (_ & _ & _ & _ & [[U1 U2]|(? & _)]);
    [|done].
  split; [exact U1|]. rewrite U2. simpl. apply paced_disk.
Qed.

(** C10.  The cache holds results of the remote endpoint only: if every
    entry carries [is_fallback = False], so does every entry after any
    call of [analyze_news], whether it returns or raises, after
    [clear_cache], after [_save_cache] and after [enable_cache], and a
    cache loaded from a file with this property has it.  In particular no
    entry is a basic or an enhanced fallback.  A call whose first request
    meets a 429 response leaves the cache and its file untouched, whatever
    the retry obtains. *)
Theorem cache_holds_remote_results (self : analyzer) (w : world) :
  cache_ok (cache self) ->
  (forall fuel news_text tickers use_cache self',
      final_analyzer (analyze fuel self w news_text tickers use_cache)
      = Some self' ->
      cache_ok (cache self')
      /\ forall k e, cache self' !! k = Some e ->
           forall t text tk,
             data e <> _create_basic_fallback text tk
             /\ data e <> _create_enhanced_fallback to_lower_full
                            final_sigma isoformat t text tk)
  /\ (forall older_than_days,
        cache_ok (cache (clear_cache older_than_days self w).1))
  /\ cache_ok (cache (_save_cache self w).1)
  /\ (forall enable, cache_ok (cache (enable_cache enable self)))
  /\ (forall k f c, (forall m, disk w = Some m -> cache_ok m) ->
                    cache_ok (cache (__init__ k f c w)))
  /\ (forall fuel news_text tickers use_cache key body r self' w',
        key_present (api_key self) = true ->
        cache_key_of news_text "news" = Some key ->
        cache_lookup self w key use_cache = None ->
        remote (S (request_count self)) = Response 429 body ->
        analyze (S fuel) self w news_text tickers use_cache
        = Returned r self' w' ->
        untouched self self' w w').
Proof.
  intros OK.
  assert (Save : forall a, cache_ok (cache a) ->
                           cache_ok (cache (_save_cache a w).1)).
  { intros a Ha. unfold _save_cache.
    destruct (cache_enabled a); simpl; [by apply keep_since_ok | done]. }
  split; [|split; [|split; [|split; [|split]]]].
  - intros fuel news_text tickers use_cache self' F.
    pose proof (analyze_news_keeps_ok _ _ _ _ _ _ _ OK F) as OK'.
    split; [exact OK'|].
    intros k e G t text tk. apply OK' in G. unfold from_remote in G.
    split; intros Hb; rewrite Hb in G.
    + by rewrite (basic_fallback_flag text tk) in G.
    + by rewrite enhanced_fallback_flag in G.
  - intros older. unfold clear_cache. apply Save.
    destruct older as [days|]; [destruct (days =? 0)%Z|]; simpl;
      try done; by apply keep_since_ok.
  - by apply Save.
  - done.
  - intros k f c Hd. unfold __init__, _load_cache. simpl.
    destruct (disk w) as [m|] eqn:D; simpl; [by apply Hd | done].
  - intros fuel news_text tickers use_cache key body r self' w'.
    apply retried_call_untouched.
Qed.


End Analyzer.

(** ** The client on sample inputs *)

Lemma sample_small_cyrillic_fixed (c : N) :
  small_cyrillic c -> Sample.to_lower_full c = [c].
Proof.
  unfold small_cyrillic, Sample.to_lower_full. intros [H1 H2].
  destruct (N.leb_spec 0x41 c), (N.leb_spec c 0x5A); simpl; try lia.
  destruct (N.leb_spec 0x410 c), (N.leb_spec c 0x42F); simpl; try lia.
  destruct (N.leb_spec 0x400 c), (N.leb_spec c 0x40F); simpl; try lia.
  all: done.
Defined.



(** C2, counterexample: the basic fallback for the empty text has no
    sentiment score, no confidence and no creation time. *)
Lemma basic_fallback_lacks_fields :
  get_key "sentiment_score" (_create_basic_fallback [] []) = None
  /\ get_key "confidence" (_create_basic_fallback [] []) = None
  /\ get_key "analyzed_at" (_create_basic_fallback [] []) = None
  /\ List.filter (fun k => negb (has_key k (_create_basic_fallback [] [])))
       AnalysisResult_fields
     = ["confidence"; "analyzed_at"].
Proof. repeat split; vm_compute; reflexivity. Qed.

(** Of the fields of the [AnalysisResult] dataclass the enhanced fallback
    lacks [short_term_action] only: it gives the action under
    [recommended_actions]. *)
Example enhanced_fallback_dataclass_fields :
  List.filter
    (fun k => negb (has_key k (_create_enhanced_fallback Sample.to_lower_full
                                 Sample.final_sigma Sample.isoformat 0 [] [])))
    AnalysisResult_fields
  = ["short_term_action"].
Proof. vm_compute. reflexivity. Qed.

(** C3, counterexample: the json block matches and does not parse; the brace
    candidate would parse to an object with a summary; the extraction gives
    nothing and the call returns the enhanced fallback. *)
Lemma extraction_stops_at_failed_parse :
  search_fenced fence_json Sample.broken_fence_text = Some (py "oops")
  /\ Sample.json_loads (py "oops") = None
  /\ search_braces Sample.broken_fence_text = Some Sample.summary_object
  /\ usable (Sample.json_loads Sample.summary_object) = true
  /\ _extract_json_from_response Sample.json_loads Sample.broken_fence_text
     = None
  /\ returned
       (Sample.run
          (Sample.always (Response 200 (Some Sample.broken_fence_text))) 1
          Sample.keyed Sample.world0 (py "text") None true)
     = Some (_create_enhanced_fallback Sample.to_lower_full Sample.final_sigma
               Sample.isoformat (now Sample.world0) (py "text") []).
Proof. repeat split; vm_compute; reflexivity. Qed.

(** C5, counterexample: with an API key and no folder identifier the call
    goes to the endpoint and, refused there, returns the enhanced fallback,
    not the basic one. *)
Lemma missing_folder_id_not_basic :
  folder_id Sample.unfoldered = None
  /\ exists r self' w',
       Sample.run (Sample.always (Response 403 None)) 1
         Sample.unfoldered Sample.world0 (py "text") None true
       = Returned r self' w'
       /\ r <> _create_basic_fallback (py "text") []
       /\ r = _create_enhanced_fallback Sample.to_lower_full
                Sample.final_sigma Sample.isoformat (now Sample.world0)
                (py "text") []
       /\ request_count self' = 1%nat.
Proof.
  split; [reflexivity|].
  eexists _, _, _. split; [vm_compute; reflexivity|].
  split; [|split; vm_compute; reflexivity].
  intros H. apply (f_equal (get_key "confidence")) in H.
  vm_compute in H. discriminate.
Qed.


(** *** Witnesses and sample runs *)


Lemma extraction_first_match_witness :
  _extract_json_from_response Sample.json_loads Sample.fenced_text
  = Sample.json_loads Sample.summary_object
  /\ usable (Sample.json_loads Sample.summary_object) = true.
Proof.
  split; [|vm_compute; reflexivity].
  apply (proj1 (extraction_first_match Sample.to_lower_full Sample.final_sigma
                  Sample.md5_hexdigest Sample.isoformat Sample.json_loads
                  Sample.fenced_text)).
  vm_compute. reflexivity.
Defined.

Lemma basic_fallback_iff_no_api_key_witness :
  Sample.run Sample.always_429 1 Sample.keyless Sample.world0 (py "text")
    None true
  = Returned (_create_basic_fallback (py "text") []) Sample.keyless
      Sample.world0.
Proof.
  apply (proj1 (basic_fallback_iff_no_api_key Sample.to_lower_full
                  Sample.final_sigma Sample.md5_hexdigest Sample.isoformat
                  Sample.json_loads Sample.always_429 0 Sample.keyless
                  Sample.world0 (py "text") None true)).
  reflexivity.
Defined.


Lemma cache_round_trip_witness :
  exists r self1 w1,
    Sample.run (Sample.always (Response 200 (Some Sample.fenced_text))) 1
      Sample.keyed Sample.world0 (py "text") None true
    = Returned r self1 w1
    /\ cache self1 !! Sample.text_key = Some (CacheEntry (now w1) r)
    /\ Sample.run (Sample.always (Response 200 (Some Sample.fenced_text))) 1
         self1 (elapse (seconds 3600) w1) (py "text") None true
       = Returned r self1 (elapse (seconds 3600) w1).
Proof.
  refine (cache_round_trip Sample.to_lower_full Sample.final_sigma
            Sample.md5_hexdigest Sample.isoformat Sample.json_loads
            (Sample.always (Response 200 (Some Sample.fenced_text)))
            0 Sample.keyed Sample.world0 (py "text") None None
            Sample.text_key Sample.fenced_text Sample.summary_dict
            (seconds 3600) _ _ _ _ _ _ _ _).
  1-6: vm_compute; reflexivity.
  - exists (VStr (py "ok")). vm_compute. reflexivity.
  - unfold seconds, timedelta_days. lia.
Defined.

Lemma sample_cache_ok : cache_ok (cache Sample.aged_analyzer).
Proof.
  intros k e H. unfold Sample.aged_analyzer, set_cache in H.
  cbn [cache] in H. apply lookup_singleton_Some in H as [_ <-].
  vm_compute. reflexivity.
Defined.

Lemma cache_holds_remote_results_witness :
  cache_ok (cache Sample.aged_analyzer)
  /\ exists self',
       final_analyzer
         (Sample.run (Sample.always (Response 200 (Some Sample.fenced_text))) 1
            Sample.aged_analyzer Sample.world0 (py "text") None true)
       = Some self'
       /\ cache_ok (cache self')
       /\ size (cache self') = 2%nat.
Proof.
  split; [exact sample_cache_ok|].
  eexists. split; [vm_compute; reflexivity|].
  split; [|vm_compute; reflexivity].
  refine (proj1 (proj1 (cache_holds_remote_results Sample.to_lower_full
                   Sample.final_sigma Sample.md5_hexdigest Sample.isoformat
                   Sample.json_loads
                   (Sample.always (Response 200 (Some Sample.fenced_text)))
                   Sample.aged_analyzer Sample.world0 sample_cache_ok)
            1%nat (py "text") None true _ _)).
  vm_compute. reflexivity.
Defined.


(** The extraction on the three kinds of response the specification lists:
    a fenced block and an object amid prose parse, a text without JSON does
    not. *)
Example extraction_samples :
  _extract_json_from_response Sample.json_loads Sample.fenced_text
  = Some (VDict Sample.summary_dict)
  /\ _extract_json_from_response Sample.json_loads Sample.prose_text
     = Some (VDict Sample.summary_dict)
  /\ _extract_json_from_response Sample.json_loads (py "no json here") = None.
Proof. repeat split; vm_compute; reflexivity. Qed.

(** A risk word counts once however often it occurs, and in any case of
    letters. *)
Example risk_level_samples :
  get_key "risk_level"
    (_create_enhanced_fallback Sample.to_lower_full Sample.final_sigma
       Sample.isoformat 0 (py "война, война, война") [])
  = Some (VStr (py "средний"))
  /\ get_key "risk_level"
       (_create_enhanced_fallback Sample.to_lower_full Sample.final_sigma
          Sample.isoformat 0 (py "ВОЙНА и Дефолт") [])
     = Some (VStr (py "высокий"))
  /\ get_key "risk_level"
       (_create_enhanced_fallback Sample.to_lower_full Sample.final_sigma
          Sample.isoformat 0 [] [])
     = Some (VStr (py "низкий")).
Proof. repeat split; vm_compute; reflexivity. Qed.

(** An entry that is two days old is not served: the call goes to the
    endpoint and, refused there, leaves the entry in place. *)
Example stale_entry_goes_remote :
  exists r self' w',
    Sample.run (Sample.always (Response 403 None)) 1 Sample.cached_analyzer
      (elapse (timedelta_days 2) Sample.world0) (py "text") None true
    = Returned r self' w'
    /\ request_count self' = 1%nat
    /\ get_key "is_fallback" r = Some (VBool true)
    /\ cache self' = cache Sample.cached_analyzer.
Proof.
  eexists _, _, _. split; [vm_compute; reflexivity|].
  repeat split; vm_compute; reflexivity.
Qed.

(** * Further properties of the client *)

(** ** More on [analyze_news] *)

Section MoreAnalyzer.

Variable to_lower_full : N -> pystr.
Variable final_sigma : pystr -> pystr -> bool.
Variable md5_hexdigest : list N -> string.
Variable isoformat : Z -> pystr.
Variable json_loads : pystr -> option value.
Variable remote : nat -> reply.

Local Abbreviation analyze :=
  (analyze_news to_lower_full final_sigma md5_hexdigest isoformat json_loads
                remote).
Local Abbreviation enhanced :=
  (enhanced_fallback to_lower_full final_sigma isoformat).
Local Abbreviation on_success :=
  (on_success_status to_lower_full final_sigma md5_hexdigest isoformat
                     json_loads).
Local Abbreviation cache_key_of := (_get_cache_key md5_hexdigest).
Local Abbreviation extract := (_extract_json_from_response json_loads).

Lemma paced_slept self w : slept w `prefix_of` slept (paced self w).
Proof.
  unfold paced. destruct (_ =? _)%nat; simpl; [by eexists | done].
Qed.

(** The parts of the analyzer and of the world that a call never rewrites:
    the three identifiers, and the sleeps already logged. *)
Lemma analyze_news_keeps fuel :
  forall self w news_text tickers use_cache r self' w',
    analyze fuel self w news_text tickers use_cache = Returned r self' w' ->
    folder_id self' = folder_id self
    /\ cloud_id self' = cloud_id self
    /\ slept w `prefix_of` slept w'.
Proof.
  induction fuel as [|fuel IH]; intros self w news_text tickers use_cache
    r self' w'; [done|].
  destruct (key_present (api_key self)) eqn:K.
  2: { simpl. rewrite K. simpl. by intros [= <- <- <-]. }
  destruct (cache_key_of news_text "news") as [key|] eqn:E.
  2: { simpl. rewrite K, E. done. }
  rewrite (analyze_news_step _ _ _ _ _ _ _ _ _ _ _ _ key K E).
  destruct (cache_lookup self w key use_cache).
  { by intros [= <- <- <-]. }
  assert (Fallback : enhanced (counted self) (paced self w) news_text
                       (default [] tickers) = Returned r self' w' ->
                     folder_id self' = folder_id self
                     /\ cloud_id self' = cloud_id self
                     /\ slept w `prefix_of` slept w').
  { intros [= <- <- <-]. simpl. repeat split. apply paced_slept. }
  simpl. destruct (remote _) as [| | |status body]; try exact Fallback.
  destruct (status =? 200)%Z.
  - destruct body as [ai_text|]; [|exact Fallback].
    destruct (cache_key_encode _ _ _ E) as (bs & Ebs & _).
    rewrite (on_success_cases _ _ _ _ _ _ _ _ _ _ _ _ bs Ebs).
    destruct (extract ai_text) as [[| | | | | |d]|]; try exact Fallback.
    destruct (usable _); [|exact Fallback].
    destruct (use_cache && _); intros [= <- <- <-]; simpl;
      repeat split; apply paced_slept.
  - destruct (status =? 429)%Z; [|exact Fallback].
    intros H. apply IH in H as (A & B & C). simpl in *.
    repeat split; try done.
    etrans; [apply paced_slept|]. etrans; [|exact C].
    exists [2; 1]. by rewrite <- !app_assoc.
Qed.

(** With the next request not answered by 429, one level of calls is
    enough for [analyze_news] to finish. *)
Lemma analyze_news_finishes fuel self w news_text tickers use_cache :
  is_429 (remote (S (request_count self))) = false ->
  analyze (S fuel) self w news_text tickers use_cache <> Unfinished.
Proof.
  intros Free.
  destruct (key_present (api_key self)) eqn:K.
  2: { simpl. by rewrite K. }
  destruct (cache_key_of news_text "news") as [key|] eqn:E.
  2: { simpl. by rewrite K, E. }
  destruct (cache_lookup self w key use_cache) as [d|] eqn:L.
  { rewrite (analyze_news_step _ _ _ _ _ _ _ _ _ _ _ _ key K E), L. done. }
  destruct (analyze_news_returns to_lower_full final_sigma md5_hexdigest
              isoformat json_loads remote 0 fuel self w news_text tickers
              use_cache key K E L) as (r & s' & w' & H & _).
  - intros i Hi. lia.
  - by rewrite Nat.add_0_r.
  - change (1 + fuel)%nat with (S fuel) in H. by rewrite H.
Qed.

Lemma analyze_news_comes_back
    (k fuel : nat) (self : analyzer) (w : world) (news_text : pystr)
    (tickers : option (list pystr)) (use_cache : bool) :
  (forall i, (i < k)%nat ->
             is_429 (remote (S (request_count self) + i)) = true) ->
  is_429 (remote (S (request_count self) + k)) = false ->
  is_Some (encode news_text) ->
  exists r self' w',
    analyze (S k + fuel) self w news_text tickers use_cache
    = Returned r self' w'
    /\ (request_count self' = request_count self
        \/ request_count self' = (request_count self + S k)%nat).
Proof.
  intros Busy Free [bs Ebs].
  destruct (key_present (api_key self)) eqn:K.
  2: { eexists _, _, _. simpl. rewrite K. simpl. split; [reflexivity|].
       by left. }
  assert (E : cache_key_of news_text "news"
              = Some ("news" +:+ "_" +:+ md5_hexdigest bs)).
  { unfold _get_cache_key. by rewrite Ebs. }
  destruct (cache_lookup self w ("news" +:+ "_" +:+ md5_hexdigest bs)
              use_cache) as [d|] eqn:L.
  { exists d, self, w.
    change (S k + fuel)%nat with (S (k + fuel)).
    rewrite (analyze_news_step _ _ _ _ _ _ _ _ _ _ _ _ _ K E), L.
    split; [done | by left]. }
  destruct (analyze_news_returns to_lower_full final_sigma md5_hexdigest
              isoformat json_loads remote k fuel self w news_text tickers
              use_cache _ K E L Busy Free) as (r & s' & w' & H & Hc).
  exists r, s', w'. split; [exact H | by right].
Qed.


(** A call that raises had an API key to work with. *)
Lemma analyze_news_raised_key fuel self w news_text tickers use_cache
    e self' w' :
  analyze fuel self w news_text tickers use_cache = Raised e self' w' ->
  key_present (api_key self) = true.
Proof.
  destruct fuel as [|fuel]; [done|]. simpl.
  by destruct (key_present (api_key self)).
Qed.


(** X3.  What a call never touches: the credentials and identifiers and the
    caching switch stay as they were; the request counter and the clock do
    not go back, and the sleeps already logged stay logged; with
    [use_cache=False], or with caching disabled, the cache and its file are
    left as they were. *)
Theorem analyze_news_frame
    (fuel : nat) (self : analyzer) (w : world) (news_text : pystr)
    (tickers : option (list pystr)) (use_cache : bool)
    (r : value) (self' : analyzer) (w' : world) :
  analyze fuel self w news_text tickers use_cache = Returned r self' w' ->
  api_key self' = api_key self
  /\ folder_id self' = folder_id self
  /\ cloud_id self' = cloud_id self
  /\ cache_enabled self' = cache_enabled self
  /\ (request_count self <= request_count self')%nat
  /\ now w <= now w'
  /\ slept w `prefix_of` slept w'
  /\ (use_cache = false \/ cache_enabled self = false ->
      cache self' = cache self /\ disk w' = disk w).
Proof.
  intros H.
  pose proof (analyze_news_keeps _ _ _ _ _ _ _ _ _ H) as (F & C & S).
  apply analyze_news_effect in H as (A & B & R & T & U).
  do 7 (split; [done|]).
  intros Off. destruct U as [U|(-> & En & _)]; [exact U|].
  destruct Off; congruence.
Qed.

End MoreAnalyzer.

(** ** More on the cache operations *)

Lemma keep_since_twice (c1 c2 : Z) (c : gmap string cache_entry) :
  keep_since c1 (keep_since c2 c) = keep_since (Z.max c1 c2) c.
Proof.
  apply map_eq. intros k. apply option_eq. intros e.
  rewrite !keep_since_lookup. intuition lia.
Qed.



(** ** More on the enhanced fallback *)

Lemma positive_words_small : Forall (Forall small_cyrillic) positive_words.
Proof.
  unfold positive_words, small_cyrillic.
  repeat first [apply Forall_nil_2 | apply Forall_cons_2]; lia.
Qed.

Lemma count_present_pos (words : list pystr) (text w : pystr) :
  w ∈ words -> contains w text = true ->
  (0 < count_present words text)%nat.
Proof.
  intros Hw C. unfold count_present.
  assert (M : w ∈ filter (λ word, contains word text = true) words)
    by (by apply list_elem_of_filter).
  destruct (filter _ words); [by apply elem_of_nil in M | simpl; lia].
Qed.

Section MoreFallbacks.

Variable to_lower_full : N -> pystr.
Variable final_sigma : pystr -> pystr -> bool.
Variable isoformat : Z -> pystr.

Local Abbreviation lower := (lower to_lower_full final_sigma).
Local Abbreviation fallback :=
  (_create_enhanced_fallback to_lower_full final_sigma isoformat).

(** X6.  The enhanced fallback compares the number of positive-list words
    with the number of negative-list words present in the lowercased text:
    more positive ones give the positive sentiment with score 0.5 and the
    advice to increase positions, more negative ones the negative sentiment
    with score -0.5 and the advice of caution, a tie the neutral sentiment
    with score 0.0 and the advice to hold; in particular a text in which a
    word of the positive list occurs and no word of the negative list does
    is rated positive. *)
Theorem enhanced_fallback_sentiment
    (t : Z) (news_text : pystr) (mentioned_tickers : list pystr) :
  (forall c, small_cyrillic c -> to_lower_full c = [c]) ->
  let positive_count := count_present positive_words (lower news_text) in
  let negative_count := count_present negative_words (lower news_text) in
  let result := fallback t news_text mentioned_tickers in
  let rated (sentiment : pystr) (score : Q) (action : pystr) :=
    get_key "sentiment" result = Some (VStr sentiment)
    /\ get_key "sentiment_score" result = Some (VFloat score)
    /\ get_key "recommended_actions" result = Some (VStr action)
    /\ get_key "short_term_forecast" result
       = Some (VStr (py "Ожидается " ++ sentiment ++ py " динамика")) in
  ((negative_count < positive_count)%nat ->
   rated (py "позитивный") 0.5%Q
         (py "Рассмотреть возможность увеличения позиций"))
  /\ ((positive_count < negative_count)%nat ->
      rated (py "негативный") (-0.5)%Q
            (py "Рекомендуется осторожность, возможна коррекция"))
  /\ (positive_count = negative_count ->
      rated (py "нейтральный") 0.0%Q
            (py "Сохранять текущие позиции, следить за новостями"))
  /\ (forall word,
         word ∈ positive_words -> contains word news_text = true ->
         negative_count = 0%nat ->
         rated (py "позитивный") 0.5%Q
               (py "Рассмотреть возможность увеличения позиций")).
Proof.
  intros Hfix positive_count negative_count result rated.
  assert (Pos : (negative_count < positive_count)%nat ->
                rated (py "позитивный") 0.5%Q
                  (py "Рассмотреть возможность увеличения позиций")).
  { intros H. unfold rated, result, _create_enhanced_fallback.
    fold positive_count negative_count. unfold sentiment_of.
    destruct (Nat.ltb_spec negative_count positive_count); [|lia].
    repeat split; dict_lookup. }
  split; [exact Pos|]. split; [|split].
  - intros H. unfold rated, result, _create_enhanced_fallback.
    fold positive_count negative_count. unfold sentiment_of.
    destruct (Nat.ltb_spec negative_count positive_count); [lia|].
    destruct (Nat.ltb_spec positive_count negative_count); [|lia].
    repeat split; dict_lookup.
  - intros H. unfold rated, result, _create_enhanced_fallback.
    fold positive_count negative_count. unfold sentiment_of.
    destruct (Nat.ltb_spec negative_count positive_count); [lia|].
    destruct (Nat.ltb_spec positive_count negative_count); [lia|].
    repeat split; dict_lookup.
  - intros word Hw C Hn. apply Pos. rewrite Hn.
    apply (count_present_pos _ _ word); [done|].
    apply contains_lower; [done| |done].
    pose proof positive_words_small as S. rewrite Forall_forall in S. auto.
Qed.

(** X7.  The enhanced fallback lists a key risk exactly when its risk level
    is not the low one, and a text whose lowercase form mentions [кризис], a
    word of both the risk list and the negative list, is never rated low
    risk and counts at least one negative signal. *)
Theorem enhanced_fallback_key_risks
    (t : Z) (news_text : pystr) (mentioned_tickers : list pystr) :
  let result := fallback t news_text mentioned_tickers in
  (get_key "key_risks" result = Some (VList [])
   <-> get_key "risk_level" result = Some (VStr (py "низкий")))
  /\ (get_key "key_risks" result = Some (VList [])
      \/ get_key "key_risks" result
         = Some (VList [VStr (py "Ограниченность анализа")]))
  /\ (contains (py "кризис") (lower news_text) = true ->
      get_key "risk_level" result <> Some (VStr (py "низкий"))
      /\ get_key "key_risks" result
         = Some (VList [VStr (py "Ограниченность анализа")])
      /\ (0 < count_present negative_words (lower news_text))%nat).
Proof.
  intros result.
  assert (R : get_key "risk_level" result
              = Some (VStr (risk_level_of
                              (count_present risk_words (lower news_text))))).
  { unfold result, _create_enhanced_fallback.
    destruct (sentiment_of _ _) as [sentiment score]. dict_lookup. }
  assert (Kr : get_key "key_risks" result
               = Some (if decide (risk_level_of
                                    (count_present risk_words (lower news_text))
                                  <> py "низкий")
                       then VList [VStr (py "Ограниченность анализа")]
                       else VList [])).
  { unfold result, _create_enhanced_fallback.
    destruct (sentiment_of _ _) as [sentiment score]. dict_lookup. }
  rewrite R, Kr. split; [|split].
  - case_decide as D.
    + split; [done|]. intros [= E]. done.
    + split; [|done]. intros _. f_equal. f_equal.
      by destruct (decide (risk_level_of
                             (count_present risk_words (lower news_text))
                           = py "низкий")).
  - case_decide; [by right | by left].
  - intros C.
    assert (P : (0 < count_present risk_words (lower news_text))%nat).
    { apply (count_present_pos _ _ (py "кризис")); [|done].
      vm_compute. repeat constructor. }
    assert (L : risk_level_of (count_present risk_words (lower news_text))
                <> py "низкий").
    { unfold risk_level_of.
      destruct (count_present risk_words (lower news_text)) as [|[|n]];
        [lia | | ]; simpl; vm_compute; discriminate. }
    split; [by intros [= E]|]. split.
    + by rewrite decide_True.
    + apply (count_present_pos _ _ (py "кризис")); [|done].
      vm_compute. repeat constructor.
Qed.

End MoreFallbacks.

(** ** Ranges and slices *)

(** The slices [l[i:i+step]] taken at the elements of
    [range(i, len(l), step)] make up [l[i:]]. *)
Lemma slices_concat {A} (l : list A) (step : nat) :
  (0 < step)%nat ->
  forall fuel i,
    (length l <= i + fuel)%nat ->
    concat (map (fun j => slice l j step) (range_from fuel i (length l) step))
    = drop i l.
Proof.
  intros Hs. induction fuel as [|fuel IH]; intros i H; simpl.
  - rewrite drop_ge; [done | lia].
  - destruct (Nat.ltb_spec i (length l)) as [Hi|Hi]; simpl.
    + rewrite IH by lia. unfold slice.
      rewrite <- (take_drop step (drop i l)) at 2.
      by rewrite drop_drop.
    + rewrite drop_ge; [done | lia].
Qed.

(** The number of elements of the range that are followed by another. *)
Lemma range_from_followed (n step : nat) :
  (0 < step)%nat ->
  forall fuel i,
    (n <= i + fuel)%nat ->
    length (filter (fun j => (j + step < n)%nat) (range_from fuel i n step))
    = ((n - 1 - i) / step)%nat.
Proof.
  intros Hs. induction fuel as [|fuel IH]; intros i H; simpl.
  - rewrite Nat.div_small; [done | lia].
  - destruct (Nat.ltb_spec i n) as [Hi|Hi].
    + rewrite filter_cons. case_decide as D; simpl; rewrite IH by lia.
      * replace (n - 1 - i)%nat with ((n - 1 - (i + step)) + 1 * step)%nat
          by lia.
        rewrite Nat.div_add by lia. lia.
      * rewrite (Nat.div_small (n - 1 - i)) by lia.
        rewrite Nat.div_small; [done | lia].
    + simpl. rewrite Nat.div_small; [done | lia].
Qed.

(** ** The callers of [analyze_news] *)

Section MoreCallers.

Variable to_lower_full : N -> pystr.
Variable final_sigma : pystr -> pystr -> bool.
Variable md5_hexdigest : list N -> string.
Variable isoformat : Z -> pystr.
Variable json_loads : pystr -> option value.
Variable remote : nat -> reply.

Local Abbreviation analyze :=
  (analyze_news to_lower_full final_sigma md5_hexdigest isoformat json_loads
                remote).
Local Abbreviation batch :=
  (analyze_batch to_lower_full final_sigma md5_hexdigest isoformat json_loads
                 remote).
Local Abbreviation batches :=
  (batches_loop to_lower_full final_sigma md5_hexdigest isoformat json_loads
                remote).
Local Abbreviation multiple :=
  (analyze_multiple_news to_lower_full final_sigma md5_hexdigest isoformat
                         json_loads remote).
Local Abbreviation recovered :=
  (item_recovered to_lower_full final_sigma isoformat).

Lemma recovered_same_key self self' r :
  api_key self' = api_key self -> recovered self' r -> recovered self r.
Proof. unfold item_recovered. by intros ->. Qed.

Section NeverBusy.

Hypothesis never_busy : forall n, is_429 (remote n) = false.

Lemma analyze_batch_ok fuel items :
  forall results self w,
  exists rs self' w',
    batch (S fuel) items results self w = Some (results ++ rs, self', w')
    /\ map result_news rs = items
    /\ api_key self' = api_key self
    /\ Forall (recovered self) rs.
Proof.
  induction items as [|news items IH]; intros results self w.
  { exists [], self, w. simpl. by rewrite app_nil_r. }
  cbn [analyze_batch].
  destruct (analyze (S fuel) self w (default [] (item_text news))
              (Some (default [] (item_tickers news))) true)
    as [r s1 w1|e s1 w1|] eqn:H.
  - pose proof (analyze_news_effect _ _ _ _ _ _ _ _ _ _ _ _ _ _ _ H)
      as (A & _).
    destruct (IH (results ++ [BatchResult news r None]) s1 w1)
      as (rs & s2 & w2 & E & M & K & F).
    exists (BatchResult news r None :: rs), s2, w2.
    rewrite E, <- app_assoc. simpl. repeat split; try congruence.
    apply Forall_cons_2.
    + unfold item_recovered. simpl. intros [K1 En].
      change (S fuel) with (S fuel) in H. simpl in H.
      rewrite K1 in H. unfold _get_cache_key in H. by rewrite En in H.
    + eapply Forall_impl; [exact F|]. intros x. by apply recovered_same_key.
  - pose proof (analyze_news_raised_key _ _ _ _ _ _ _ _ _ _ _ _ _ _ _ H)
      as K1.
    pose proof (analyze_news_raised _ _ _ _ _ _ _ _ _ _ _ _ _ _ _ H)
      as (-> & -> & En).
    destruct (IH (results
                    ++ [BatchResult news
                          (_create_enhanced_fallback to_lower_full final_sigma
                             isoformat (now w) (default [] (item_text news))
                             (default [] (item_tickers news)))
                          (Some e)]) self w)
      as (rs & s2 & w2 & E & M & K & F).
    exists (BatchResult news
              (_create_enhanced_fallback to_lower_full final_sigma isoformat
                 (now w) (default [] (item_text news))
                 (default [] (item_tickers news)))
              (Some e) :: rs), s2, w2.
    rewrite E, <- app_assoc. simpl. repeat split; try congruence.
    apply Forall_cons_2; [|done].
    unfold item_recovered. simpl. repeat split; try done. by eexists.
  - exfalso. revert H. apply analyze_news_finishes. apply never_busy.
Qed.

Lemma batches_loop_ok fuel news_list step starts :
  forall results self w,
  exists rs self' w',
    batches (S fuel) starts news_list step results self w
    = Some (results ++ rs, self', w')
    /\ map result_news rs
       = concat (map (fun i => slice news_list i step) starts)
    /\ api_key self' = api_key self
    /\ Forall (recovered self) rs.
Proof.
  induction starts as [|i starts IH]; intros results self w.
  { exists [], self, w. simpl. by rewrite app_nil_r. }
  cbn [batches_loop].
  destruct (analyze_batch_ok fuel (slice news_list i step) results self w)
    as (rs1 & s1 & w1 & E1 & M1 & K1 & F1).
  rewrite E1.
  destruct (IH (results ++ rs1) s1
              (if (i + step <? length news_list)%nat then sleep 1 w1 else w1))
    as (rs2 & s2 & w2 & E2 & M2 & K2 & F2).
  exists (rs1 ++ rs2), s2, w2. rewrite E2, <- app_assoc.
  repeat split; try congruence.
  - simpl. by rewrite map_app, M1, M2.
  - apply Forall_app. split; [done|].
    eapply Forall_impl; [exact F2|]. intros x. by apply recovered_same_key.
Qed.

(** X8.  Against an endpoint that never answers 429, and with a positive
    batch size, [analyze_multiple_news] returns one result for every item
    of the list, in the order of the list and each with its own item; an
    item whose analysis raised (an API key is set and its text cannot be
    encoded) is not lost: its result carries the error and an enhanced
    fallback, and the items after it are analysed all the same. *)
Theorem analyze_multiple_news_complete
    (fuel : nat) (self : analyzer) (w : world) (news_list : list news_item)
    (batch_size : Z) :
  0 < batch_size ->
  exists results self' w',
    multiple (S fuel) self w news_list batch_size
    = BatchReturned results self' w'
    /\ map result_news results = news_list
    /\ Forall (recovered self) results.
Proof.
  intros Hb. unfold analyze_multiple_news, py_range.
  destruct (Z.eqb_spec batch_size 0) as [|_]; [lia|].
  destruct (Z.ltb_spec batch_size 0) as [|_]; [lia|].
  destruct (batches_loop_ok fuel news_list (Z.to_nat batch_size)
              (range_from (length news_list) 0 (length news_list)
                 (Z.to_nat batch_size)) [] self w)
    as (rs & s' & w' & E & M & _ & F).
  rewrite E. exists rs, s', w'. repeat split; [|done].
  rewrite M, slices_concat; [done | lia | lia].
Qed.

End NeverBusy.

(** X9.  The batch size is used as the step of a range: with a batch size
    of 0 [analyze_multiple_news] raises [ValueError], even for an empty
    list; with a negative batch size it returns the empty list whatever the
    items are, without a call, a request or a pause. *)
Theorem analyze_multiple_news_bad_batch_size
    (fuel : nat) (self : analyzer) (w : world) (news_list : list news_item) :
  multiple fuel self w news_list 0 = BatchValueError self w
  /\ forall batch_size,
       batch_size < 0 ->
       multiple fuel self w news_list batch_size = BatchReturned [] self w.
Proof.
  split; [done|]. intros b Hb. unfold analyze_multiple_news, py_range.
  destruct (Z.eqb_spec b 0) as [|_]; [lia|].
  destruct (Z.ltb_spec b 0) as [_|]; [done | lia].
Qed.

Lemma analyze_batch_keyless fuel self w items :
  key_present (api_key self) = false ->
  forall results,
    batch (S fuel) items results self w
    = Some (results ++ map basic_item items, self, w).
Proof.
  intros K. induction items as [|news items IH]; intros results.
  { simpl. by rewrite app_nil_r. }
  cbn [analyze_batch].
  assert (E : analyze (S fuel) self w (default [] (item_text news))
                (Some (default [] (item_tickers news))) true
              = Returned (result_analysis (basic_item news)) self w).
  { simpl. by rewrite K. }
  rewrite E, IH, <- app_assoc. done.
Qed.

Lemma batches_loop_keyless fuel self news_list step starts :
  key_present (api_key self) = false ->
  forall results w,
    batches (S fuel) starts news_list step results self w
    = Some (results
              ++ map basic_item
                   (concat (map (fun i => slice news_list i step) starts)),
            self,
            Nat.iter
              (length (filter (fun j => (j + step < length news_list)%nat)
                         starts))
              (sleep 1) w).
Proof.
  intros K. induction starts as [|i starts IH]; intros results w.
  { simpl. by rewrite app_nil_r. }
  cbn [batches_loop]. rewrite (analyze_batch_keyless _ _ _ _ K), IH.
  simpl. rewrite map_app, <- app_assoc. rewrite filter_cons.
  destruct (Nat.ltb_spec (i + step) (length news_list)) as [L|L].
  - rewrite decide_True by done. cbn [length]. by rewrite Nat.iter_succ_r.
  - rewrite decide_False by lia. done.
Qed.

(** X10.  Without an API key, and with a positive batch size,
    [analyze_multiple_news] returns the basic fallback for every item, in
    order, sends nothing and leaves the analyzer as it was; between batches
    it sleeps one second, that is [(n - 1) / batch_size] times for [n]
    items, not after the last batch. *)
Theorem analyze_multiple_news_keyless
    (fuel : nat) (self : analyzer) (w : world) (news_list : list news_item)
    (batch_size : Z) :
  key_present (api_key self) = false ->
  0 < batch_size ->
  multiple (S fuel) self w news_list batch_size
  = BatchReturned (map basic_item news_list) self
      (Nat.iter ((length news_list - 1) / Z.to_nat batch_size) (sleep 1) w).
Proof.
  intros K Hb. unfold analyze_multiple_news, py_range.
  destruct (Z.eqb_spec batch_size 0) as [|_]; [lia|].
  destruct (Z.ltb_spec batch_size 0) as [|_]; [lia|].
  rewrite (batches_loop_keyless _ _ _ _ _ K).
  rewrite slices_concat by lia. rewrite range_from_followed by lia.
  by rewrite Nat.sub_0_r.
Qed.

End MoreCallers.

(** ** The global analyzer *)

Lemma test_news_key (md5_hexdigest : list N -> string) :
  exists key, _get_cache_key md5_hexdigest test_news "news" = Some key.
Proof.
  unfold _get_cache_key.
  assert (E : is_Some (encode test_news)) by (vm_compute; eauto).
  destruct E as [bs ->]. eauto.
Qed.

Section GlobalAnalyzer.

Variable to_lower_full : N -> pystr.
Variable final_sigma : pystr -> pystr -> bool.
Variable md5_hexdigest : list N -> string.
Variable isoformat : Z -> pystr.
Variable json_loads : pystr -> option value.
Variable remote : nat -> reply.

Local Abbreviation analyze :=
  (analyze_news to_lower_full final_sigma md5_hexdigest isoformat json_loads
                remote).
Local Abbreviation init :=
  (init_analyzer to_lower_full final_sigma md5_hexdigest isoformat json_loads
                 remote).
Local Abbreviation text_analysis :=
  (analyze_text to_lower_full final_sigma md5_hexdigest isoformat json_loads
                remote).

Lemma init_fields (k f c : option pystr) (w : world) :
  api_key (__init__ k f c w) = k
  /\ folder_id (__init__ k f c w) = f
  /\ cloud_id (__init__ k f c w) = c
  /\ request_count (__init__ k f c w) = 0%nat
  /\ cache_enabled (__init__ k f c w) = true.
Proof. unfold __init__, _load_cache. by destruct (disk w). Qed.

(** X11.  [init_analyzer] refuses to start without both credentials: when
    the API key or the folder identifier is missing or empty it returns
    [False], constructs nothing, sends nothing, and leaves the global
    analyzer as it was (a previously installed analyzer stays in place). *)
Theorem init_analyzer_needs_credentials
    (fuel : nat) (global : option analyzer) (w : world)
    (key folder cloud : option pystr) (base_url : pystr) :
  key_present key = false \/ key_present folder = false ->
  init fuel global w key folder cloud base_url = Done false global w.
Proof.
  unfold init_analyzer. intros [-> | ->]; simpl; [done|].
  by rewrite orb_true_r.
Qed.

(** X12.  With both credentials [init_analyzer] reports success whatever the
    test request brought, be it an analysis, an error status, a timeout or
    an unusable body: unless the endpoint answers 429 it returns [True] and
    installs an analyzer that has sent at most one request.  That analyzer
    holds the given key and folder, and the base URL in the place of the
    cloud identifier: the [cloud_id] argument is not used. *)
Theorem init_analyzer_succeeds
    (fuel : nat) (global : option analyzer) (w : world)
    (key folder cloud : option pystr) (base_url : pystr) :
  key_present key = true ->
  key_present folder = true ->
  is_429 (remote 1) = false ->
  exists self' w',
    init (S fuel) global w key folder cloud base_url
    = Done true (Some self') w'
    /\ api_key self' = key
    /\ folder_id self' = folder
    /\ cloud_id self' = Some base_url
    /\ (request_count self' <= 1)%nat.
Proof.
  intros K F Free. unfold init_analyzer. rewrite K, F. simpl negb. simpl orb.
  cbv iota.
  pose proof (init_fields key folder (Some base_url) w)
    as (Ak & Af & Ac & Ar & _).
  destruct (analyze_news_comes_back to_lower_full final_sigma md5_hexdigest
              isoformat json_loads remote 0 fuel
              (__init__ key folder (Some base_url) w) w test_news
              (Some test_tickers) true)
    as (r & s' & w' & H & Hc).
  - intros i Hi. lia.
  - by rewrite Ar.
  - vm_compute. eauto.
  - change (1 + fuel)%nat with (S fuel) in H. rewrite H.
    exists s', w'. split; [done|].
    pose proof (analyze_news_keeps _ _ _ _ _ _ _ _ _ _ _ _ _ _ _ H)
      as (Kf & Kc & _).
    pose proof (analyze_news_effect _ _ _ _ _ _ _ _ _ _ _ _ _ _ _ H)
      as (Ka & _).
    repeat split; try congruence. lia.
Qed.


End GlobalAnalyzer.

(** ** The messages of a long report *)

Lemma range_from_below (n step : nat) :
  forall fuel i j, j ∈ range_from fuel i n step -> (j < n)%nat.
Proof.
  induction fuel as [|fuel IH]; intros i j; simpl.
  - intros H. by apply elem_of_nil in H.
  - destruct (Nat.ltb_spec i n) as [Hi|Hi].
    + intros H. apply elem_of_cons in H as [->|H]; [done|]. by apply IH in H.
    + intros H. by apply elem_of_nil in H.
Qed.

Lemma range_from_length (n step : nat) :
  (0 < step)%nat ->
  forall fuel i,
    (n <= i + fuel)%nat ->
    length (range_from fuel i n step) = ((n - i + step - 1) / step)%nat.
Proof.
  intros Hs. induction fuel as [|fuel IH]; intros i H; simpl.
  - rewrite Nat.div_small; [done | lia].
  - destruct (Nat.ltb_spec i n) as [Hi|Hi]; simpl.
    + rewrite IH by lia.
      destruct (Nat.le_gt_cases (i + step) n) as [L|L].
      * replace (n - i + step - 1)%nat
          with ((n - (i + step) + step - 1) + 1 * step)%nat by lia.
        rewrite Nat.div_add by lia. lia.
      * replace (n - (i + step) + step - 1)%nat with (step - 1)%nat by lia.
        rewrite (Nat.div_small (step - 1)) by lia.
        replace (n - i + step - 1)%nat
          with ((n - i - 1) + 1 * step)%nat by lia.
        rewrite Nat.div_add by lia. rewrite Nat.div_small; lia.
    + rewrite Nat.div_small; [done | lia].
Qed.

(** X14.  The messages [analysis_command] sends for a report are a
    partition of the report: put together in order they give the report
    back, none is longer than 4000 code points, none is empty unless the
    report is, and there are as many as 4000 goes into the length, rounded
    up (one for a report of at most 4000). *)
Theorem message_parts_partition (report : pystr) :
  concat (message_parts report) = report
  /\ Forall (fun part => (length part <= 4000)%nat) (message_parts report)
  /\ (report <> [] -> Forall (fun part => part <> []) (message_parts report))
  /\ length (message_parts report)
     = if (4000 <? length report)%nat
       then ((length report + 3999) / 4000)%nat
       else 1%nat.
Proof.
  unfold message_parts.
  destruct (Nat.ltb_spec 4000 (length report)) as [L|L].
  - split; [|split; [|split]].
    + rewrite slices_concat; [done | lia | lia].
    + apply Forall_forall. intros part H.
      apply list_elem_of_fmap in H as (i & -> & _).
      unfold slice. rewrite length_take. lia.
    + intros _. apply Forall_forall. intros part H.
      apply list_elem_of_fmap in H as (i & -> & Hi).
      apply range_from_below in Hi. unfold slice. intros E.
      apply (f_equal length) in E.
      rewrite length_take, length_drop in E. cbn [length] in E. lia.
    + rewrite length_map, range_from_length by lia.
      f_equal. lia.
  - split; [|split; [|split]].
    + simpl. by rewrite app_nil_r.
    + by apply Forall_singleton.
    + intros H. by apply Forall_singleton.
    + done.
Qed.

(** ** The keyword helpers of [analyze.py] *)

Lemma contains_within (inner word text : pystr) :
  contains inner word = true -> contains word text = true ->
  contains inner text = true.
Proof.
  rewrite !contains_substring.
  intros (a & b & ->) (c & d & ->).
  exists (c ++ a), (b ++ d). by rewrite <- !app_assoc.
Qed.

Lemma any_in_elem (words : list pystr) (text word : pystr) :
  word ∈ words -> contains word text = true -> any_in words text = true.
Proof.
  intros Hw C. unfold any_in. apply existsb_exists.
  exists word. split; [by apply list_elem_of_In | done].
Qed.

Lemma any_in_none (words : list pystr) (text : pystr) :
  count_present words text = 0%nat -> any_in words text = false.
Proof.
  unfold count_present, any_in. induction words as [|word words IH]; [done|].
  rewrite filter_cons. cbn [existsb].
  destruct (contains word text) eqn:C.
  - rewrite decide_True by done. done.
  - rewrite decide_False by done. exact IH.
Qed.

(** The scoring loops of [get_market_impact] add the weight once for every
    word of the list that is present. *)
Lemma fold_weight (words : list pystr) (text : pystr) (weight : nat) :
  forall score,
    fold_left (fun score word =>
                 if contains word text then (score + weight)%nat else score)
              words score
    = (score + weight * count_present words text)%nat.
Proof.
  unfold count_present. induction words as [|word words IH]; intros score.
  - simpl. lia.
  - simpl. rewrite IH, filter_cons.
    destruct (contains word text) eqn:C.
    + rewrite decide_True by done. simpl. lia.
    + rewrite decide_False by done. done.
Qed.

Lemma count_present_mono (small big : list pystr) (text : pystr) :
  NoDup small -> small ⊆ big ->
  (count_present small text <= count_present big text)%nat.
Proof.
  intros ND Sub. unfold count_present. apply submseteq_length.
  apply NoDup_submseteq; [by apply NoDup_filter|].
  intros x Hx. apply list_elem_of_filter in Hx as [P Hx].
  apply list_elem_of_filter. split; [done | by apply Sub].
Qed.

Lemma risk_words_high_impact :
  NoDup risk_words /\ risk_words ⊆ high_impact_words.
Proof.
  split.
  - refine (bool_decide_unpack (NoDup risk_words) _). vm_compute. exact I.
  - intros x Hx. unfold risk_words in Hx.
    repeat (apply elem_of_cons in Hx as [->|Hx];
            [vm_compute; repeat constructor|]).
    by apply elem_of_nil in Hx.
Qed.

Lemma float_thresholds (x : Q) :
  float_gt x float_0_5 = true -> float_gt x float_0_3 = true.
Proof.
  unfold float_gt. rewrite !negb_true_iff.
  intros H. destruct (Qle_bool x float_0_3) eqn:E; [|done].
  apply Qle_bool_iff in E.
  assert (L : (x <= float_0_5)%Q).
  { eapply Qle_trans; [exact E|]. unfold float_0_3, float_0_5, Qle. simpl.
    lia. }
  apply Qle_bool_iff in L. congruence.
Qed.

Section MoreHelpers.

Variable to_lower_full : N -> pystr.
Variable final_sigma : pystr -> pystr -> bool.
Variable is_space : N -> bool.
Variable isoformat : Z -> pystr.

Local Abbreviation lower := (lower to_lower_full final_sigma).
Local Abbreviation impact := (get_market_impact to_lower_full final_sigma).
Local Abbreviation topic := (get_main_topic to_lower_full final_sigma).

(** The score [get_market_impact] arrives at before it adds for the
    sentiment. *)
Lemma impact_level (text : pystr) (sentiment : Q) :
  let score :=
    (3 * count_present high_impact_words (lower text)
     + count_present medium_impact_words (lower text)
     + (if float_gt (Qabs sentiment) float_0_5 then 2
        else if float_gt (Qabs sentiment) float_0_3 then 1 else 0))%nat in
  impact text sentiment
  = if (4 <=? score)%nat then py "Высокое"
    else if (2 <=? score)%nat then py "Среднее"
    else py "Низкое".
Proof.
  unfold get_market_impact. rewrite !fold_weight. cbv zeta.
  set (high := count_present high_impact_words (lower text)).
  set (medium := count_present medium_impact_words (lower text)).
  replace (0 + 3 * high + 1 * medium)%nat with (3 * high + medium)%nat
    by lia.
  destruct (float_gt (Qabs sentiment) float_0_5); [done|].
  destruct (float_gt (Qabs sentiment) float_0_3); [done|].
  by rewrite Nat.add_0_r.
Qed.

(** X15.  A text that the enhanced fallback rates as high risk is rated as
    of high market impact by [get_market_impact], whatever the sentiment
    passed: every word of the risk list is a high-impact word, and two of
    them weigh more than the threshold. *)
Theorem high_risk_is_high_impact
    (t : Z) (text : pystr) (tickers : list pystr) (sentiment : Q) :
  get_key "risk_level"
    (_create_enhanced_fallback to_lower_full final_sigma isoformat t text
       tickers)
  = Some (VStr (py "высокий")) ->
  impact text sentiment = py "Высокое".
Proof.
  intros H.
  assert (R : get_key "risk_level"
                (_create_enhanced_fallback to_lower_full final_sigma isoformat
                   t text tickers)
              = Some (VStr (risk_level_of
                              (count_present risk_words (lower text))))).
  { unfold _create_enhanced_fallback.
    destruct (sentiment_of _ _) as [s sc]. dict_lookup. }
  rewrite R in H. injection H as H.
  assert (C : (2 <= count_present risk_words (lower text))%nat).
  { unfold risk_level_of in H.
    destruct (Nat.leb_spec 2 (count_present risk_words (lower text)));
      [done|].
    destruct (_ =? 1)%nat; vm_compute in H; discriminate. }
  destruct risk_words_high_impact as [ND Sub].
  pose proof (count_present_mono _ _ (lower text) ND Sub) as M.
  rewrite impact_level. cbv zeta.
  destruct (Nat.leb_spec 4
              (3 * count_present high_impact_words (lower text)
               + count_present medium_impact_words (lower text)
               + (if float_gt (Qabs sentiment) float_0_5 then 2
                  else if float_gt (Qabs sentiment) float_0_3 then 1
                  else 0))); [done | lia].
Qed.

(** X16.  What the sentiment and the keywords can do to the market impact.
    A text without any impact word is never of high impact: it is of medium
    impact when the sentiment exceeds 0.5 in absolute value and of low
    impact otherwise, a sentiment between 0.3 and 0.5 changing nothing.  A
    text with a high-impact word is never of low impact, and with two of
    them it is of high impact. *)
Theorem market_impact_levels (text : pystr) (sentiment : Q) :
  let high := count_present high_impact_words (lower text) in
  let medium := count_present medium_impact_words (lower text) in
  (high = 0%nat -> medium = 0%nat ->
   impact text sentiment
   = if float_gt (Qabs sentiment) float_0_5 then py "Среднее"
     else py "Низкое")
  /\ ((1 <= high)%nat -> impact text sentiment <> py "Низкое")
  /\ ((2 <= high)%nat -> impact text sentiment = py "Высокое").
Proof.
  intros high medium. rewrite impact_level. cbv zeta.
  fold high medium. split; [|split].
  - intros -> ->. simpl.
    destruct (float_gt (Qabs sentiment) float_0_5); [done|].
    by destruct (float_gt (Qabs sentiment) float_0_3).
  - intros H.
    destruct (Nat.leb_spec 4 (3 * high + medium
                              + (if float_gt (Qabs sentiment) float_0_5 then 2
                                 else if float_gt (Qabs sentiment) float_0_3
                                      then 1 else 0)));
      [vm_compute; discriminate|].
    destruct (Nat.leb_spec 2 (3 * high + medium
                              + (if float_gt (Qabs sentiment) float_0_5 then 2
                                 else if float_gt (Qabs sentiment) float_0_3
                                      then 1 else 0)));
      [vm_compute; discriminate | lia].
  - intros H.
    destruct (Nat.leb_spec 4 (3 * high + medium
                              + (if float_gt (Qabs sentiment) float_0_5 then 2
                                 else if float_gt (Qabs sentiment) float_0_3
                                      then 1 else 0)));
      [done | lia].
Qed.

(** X17.  [get_main_topic] never files a text that mentions [санкции] under
    geopolitics, although the word is on the geopolitics list: the word ends
    in [ии], a keyword of the technology branch, which is tested first.  Such
    a text is filed under one of the four earlier topics. *)
Theorem sanctions_never_geopolitics (text : pystr) :
  contains (py "санкции") (lower text) = true ->
  topic text <> py "Геополитика"
  /\ topic text ∈ [py "Фондовый рынок России"; py "Драгоценные металлы";
                   py "Сырьевые рынки"; py "Технологии и инновации"].
Proof.
  intros C.
  assert (T : any_in technology_words (lower text) = true).
  { apply (any_in_elem _ _ (py "ии")).
    - vm_compute. repeat constructor.
    - apply (contains_within _ (py "санкции")); [by vm_compute | done]. }
  assert (M : topic text ∈ [py "Фондовый рынок России";
                            py "Драгоценные металлы"; py "Сырьевые рынки";
                            py "Технологии и инновации"]).
  { unfold get_main_topic. rewrite T.
    destruct (any_in stock_words _); [apply list_elem_of_here|].
    apply list_elem_of_further.
    destruct (any_in metal_words _); [apply list_elem_of_here|].
    apply list_elem_of_further.
    destruct (any_in commodity_words _); [apply list_elem_of_here|].
    apply list_elem_of_further. apply list_elem_of_here. }
  split; [|exact M].
  intros E. rewrite E in M.
  repeat (apply elem_of_cons in M as [M|M]; [vm_compute in M; discriminate|]).
  by apply elem_of_nil in M.
Qed.

Local Abbreviation enhanced :=
  (enhanced_sentiment_analysis to_lower_full final_sigma).

Lemma float_0_3_not_exceeded :
  float_gt (Qabs (- float_0_3)) float_0_3 = false
  /\ float_gt (Qabs float_0_3) float_0_3 = false
  /\ float_gt (Qabs 0) float_0_3 = false
  /\ float_gt (Qabs (- float_0_3)) float_0_5 = false
  /\ float_gt (Qabs float_0_3) float_0_5 = false
  /\ float_gt (Qabs 0) float_0_5 = false.
Proof. by vm_compute. Qed.


(** X19.  While no sentiment model is loaded, which is the state the module
    starts in, [enhanced_sentiment_analysis] gives [-0.3], [0] or [0.3], and
    none of these exceeds the thresholds of [get_market_impact]: the impact
    entered in the report for a text is the impact of the text at
    sentiment [0], that is, the sentiment adds nothing to it. *)
Theorem unloaded_model_sentiment_adds_no_impact (text : pystr) :
  (enhanced None text = (- float_0_3)%Q \/ enhanced None text = 0%Q
   \/ enhanced None text = float_0_3)
  /\ row_impact to_lower_full final_sigma None text = impact text 0.
Proof.
  destruct float_0_3_not_exceeded as (A & B & C & D & E & F).
  assert (H : enhanced None text = (- float_0_3)%Q
              \/ enhanced None text = 0%Q
              \/ enhanced None text = float_0_3).
  { unfold enhanced_sentiment_analysis. cbv zeta.
    destruct (_ <? _)%nat; [left; by vm_compute|].
    destruct (_ <? _)%nat; [right; right; by vm_compute|].
    right; left; done. }
  split; [exact H|].
  unfold row_impact. rewrite !impact_level. cbv zeta.
  destruct H as [-> | [-> | ->]]; by rewrite ?A, ?B, ?C, ?D, ?E, ?F.
Qed.

(** X20.  The two sentiment functions read the model differently.  On a text
    that is not blank and shows no keyword trend, for which the model gives a
    label that is neither [POSITIVE] nor [NEGATIVE], [analyze_sentiment]
    returns [0] while [enhanced_sentiment_analysis] returns the negated
    score: a neutral verdict of high confidence counts as strongly
    negative in the report. *)
Theorem other_label_counts_as_negative
    (model : pystr -> option (string * Q)) (text : pystr) (label : string)
    (score : Q) :
  forallb is_space text = false ->
  model (take 512 text) = Some (label, score) ->
  label <> "POSITIVE"%string ->
  label <> "NEGATIVE"%string ->
  count_present growth_words (lower text)
  = count_present decline_words (lower text) ->
  analyze_sentiment is_space (Some model) text = 0%Q
  /\ enhanced (Some model) text = (- score)%Q.
Proof.
  intros B M P Ng Tie.
  apply String.eqb_neq in P. apply String.eqb_neq in Ng.
  split.
  - unfold analyze_sentiment. by rewrite B, M, P, Ng.
  - unfold enhanced_sentiment_analysis. cbv zeta. rewrite M, P, Tie.
    by rewrite Nat.ltb_irrefl.
Qed.

End MoreHelpers.

(** ** The ticker counts *)

Lemma count_element_tally (item k : pystr) (counts : list (pystr * nat)) :
  tally k (count_element item counts)
  = (tally k counts + if bool_decide (k = item) then 1 else 0)%nat.
Proof.
  induction counts as [|[k' c] counts IH]; simpl.
  - rewrite (bool_decide_ext (item = k) (k = item)) by done.
    destruct (bool_decide (k = item)); lia.
  - destruct (bool_decide_reflect (k' = item)) as [->|Hne]; simpl.
    + destruct (bool_decide_reflect (item = k)) as [->|Hk].
      * rewrite bool_decide_true by done. lia.
      * rewrite bool_decide_false by congruence. lia.
    + destruct (bool_decide_reflect (k' = k)) as [->|Hk].
      * rewrite bool_decide_false by congruence. lia.
      * exact IH.
Qed.

Lemma count_element_keys (item : pystr) (counts : list (pystr * nat)) :
  (count_element item counts).*1
  = if bool_decide (item ∈ counts.*1) then counts.*1
    else counts.*1 ++ [item].
Proof.
  induction counts as [|[k c] counts IH]; [done|].
  cbn [count_element].
  destruct (bool_decide_reflect (k = item)) as [->|Hne]; rewrite !fmap_cons;
    cbn [fst].
  - rewrite bool_decide_true; [done | by left].
  - rewrite IH.
    destruct (bool_decide_reflect (item ∈ counts.*1)) as [Hin|Hout].
    + rewrite bool_decide_true; [done | by right].
    + rewrite bool_decide_false; [done|].
      intros [E|Hin]%elem_of_cons; [congruence | done].
Qed.

Lemma count_element_positive (item : pystr) (counts : list (pystr * nat)) :
  Forall (fun p => (1 <= p.2)%nat) counts ->
  Forall (fun p => (1 <= p.2)%nat) (count_element item counts).
Proof.
  induction 1 as [|[k c] counts Hc Hf IH]; simpl.
  - apply Forall_cons_2; [simpl; lia | apply Forall_nil_2].
  - destruct (bool_decide (k = item)).
    + apply Forall_cons_2; [simpl; lia | done].
    + by apply Forall_cons_2.
Qed.

(** What a counter built on top of [counts] holds. *)
Lemma counter_from (items : list pystr) :
  forall counts,
    NoDup counts.*1 -> Forall (fun p => (1 <= p.2)%nat) counts ->
    let result :=
      fold_left (fun counts item => count_element item counts) items counts in
    NoDup result.*1
    /\ Forall (fun p => (1 <= p.2)%nat) result
    /\ (forall k, tally k result = (tally k counts + mentions_of k items)%nat)
    /\ (forall k, k ∈ result.*1 -> k ∈ counts.*1 \/ k ∈ items).
Proof.
  induction items as [|item items IH]; intros counts ND Pos; simpl.
  - split; [done|]. split; [done|]. split; [|by left].
    intros k. unfold mentions_of. simpl. lia.
  - assert (ND' : NoDup (count_element item counts).*1).
    { rewrite count_element_keys.
      destruct (bool_decide_reflect (item ∈ counts.*1)); [done|].
      apply NoDup_app. split; [done|]. split; [|apply NoDup_singleton].
      intros x Hx ->%list_elem_of_singleton. done. }
    destruct (IH _ ND' (count_element_positive item _ Pos))
      as (R1 & R2 & R3 & R4).
    split; [exact R1|]. split; [exact R2|]. split.
    + intros k. rewrite R3, count_element_tally.
      unfold mentions_of. rewrite filter_cons.
      destruct (bool_decide_reflect (k = item)) as [->|Hne].
      * rewrite decide_True by done. simpl. lia.
      * rewrite decide_False by congruence. lia.
    + intros k Hk. destruct (R4 k Hk) as [Hc|Hi].
      * rewrite count_element_keys in Hc.
        destruct (bool_decide (item ∈ counts.*1)); [by left|].
        apply elem_of_app in Hc as [Hc|Hc%list_elem_of_singleton];
          [by left | right; subst; by left].
      * right. by right.
Qed.

Lemma tally_elem (k : pystr) (c : nat) (counts : list (pystr * nat)) :
  NoDup counts.*1 -> (k, c) ∈ counts -> tally k counts = c.
Proof.
  induction counts as [|[k' c'] counts IH]; simpl; intros ND Hin.
  - by apply elem_of_nil in Hin.
  - apply NoDup_cons in ND as [Hk' ND].
    apply elem_of_cons in Hin as [[= <- <-]|Hin].
    + by rewrite bool_decide_true.
    + rewrite bool_decide_false; [by apply IH|].
      intros ->. apply Hk'. apply list_elem_of_fmap. by exists (k, c).
Qed.

Lemma tally_missing (k : pystr) (counts : list (pystr * nat)) :
  k ∉ counts.*1 -> tally k counts = 0%nat.
Proof.
  induction counts as [|[k' c'] counts IH]; simpl; intros Hk; [done|].
  rewrite bool_decide_false.
  - apply IH. intros H. apply Hk. by right.
  - intros ->. apply Hk. by left.
Qed.

(** [Counter(items)] holds every distinct item once, with the number of its
    occurrences. *)
Lemma Counter_counts (items : list pystr) :
  NoDup (Counter items).*1
  /\ (forall k c, (k, c) ∈ Counter items ->
                  c = mentions_of k items /\ (1 <= c)%nat)
  /\ (forall k, k ∈ items -> k ∈ (Counter items).*1).
Proof.
  destruct (counter_from items [] (NoDup_nil_2 (A:=pystr)) (Forall_nil_2 _))
    as (ND & Pos & T & K).
  fold (Counter items) in ND, Pos, T, K.
  split; [exact ND|]. split.
  - intros k c Hin. split.
    + rewrite <- (tally_elem k c _ ND Hin). by rewrite T.
    + by apply (proj1 (Forall_forall _ _) Pos (k, c)).
  - intros k Hk.
    destruct (decide (k ∈ (Counter items).*1)) as [|Hout]; [done|].
    apply tally_missing in Hout. rewrite T in Hout. simpl in Hout.
    unfold mentions_of in Hout.
    assert (M : k ∈ filter (fun x => x = k) items)
      by (by apply list_elem_of_filter).
    destruct (filter _ items); [by apply elem_of_nil in M | done].
Qed.

Lemma insert_by_count_perm (p : pystr * nat) (l : list (pystr * nat)) :
  insert_by_count p l ≡ₚ p :: l.
Proof.
  induction l as [|q l IH]; simpl; [done|].
  destruct (p.2 <? q.2)%nat; [|done].
  rewrite IH. apply Permutation_swap.
Qed.

Lemma sorted_by_count_perm (counts : list (pystr * nat)) :
  sorted_by_count counts ≡ₚ counts.
Proof.
  induction counts as [|p counts IH]; simpl; [done|].
  by rewrite insert_by_count_perm, IH.
Qed.

Lemma insert_by_count_sorted (p : pystr * nat) (l : list (pystr * nat)) :
  StronglySorted falling l -> StronglySorted falling (insert_by_count p l).
Proof.
  induction 1 as [|q l Hl IH Hq]; simpl.
  - repeat constructor.
  - destruct (Nat.ltb_spec p.2 q.2).
    + constructor; [done|].
      rewrite insert_by_count_perm. constructor; [unfold falling; lia|done].
    + constructor; [by constructor|].
      constructor; [done|].
      eapply Forall_impl; [exact Hq|].
      unfold falling. intros r Hr. simpl in Hr. lia.
Qed.

Lemma sorted_by_count_sorted (counts : list (pystr * nat)) :
  StronglySorted falling (sorted_by_count counts).
Proof.
  induction counts as [|p counts IH]; simpl; [constructor|].
  by apply insert_by_count_sorted.
Qed.

Lemma sorted_take_drop (l : list (pystr * nat)) (n : nat) :
  StronglySorted falling l ->
  StronglySorted falling (take n l)
  /\ forall p q, p ∈ take n l -> q ∈ drop n l -> falling p q.
Proof.
  intros H. revert n. induction H as [|x l Hl IH Hx]; intros n.
  - rewrite take_nil. split; [constructor|].
    intros p q Hp. by apply elem_of_nil in Hp.
  - destruct n as [|n]; simpl.
    + split; [constructor|]. intros p q Hp. by apply elem_of_nil in Hp.
    + destruct (IH n) as [S1 S2]. split.
      * constructor; [done|].
        apply Forall_forall. intros y Hy.
        apply (proj1 (Forall_forall _ _) Hx). by apply (subseteq_take n l).
      * intros p q [->|Hp]%elem_of_cons Hq; [|by apply S2].
        apply (proj1 (Forall_forall _ _) Hx). by apply (subseteq_drop n l).
Qed.

(** What [most_common] selects from a counter. *)
Lemma most_common_top (limit : nat) (items : list pystr) :
  let top := most_common limit (Counter items) in
  length top = (limit `min` length (Counter items))%nat
  /\ NoDup top.*1
  /\ StronglySorted falling top
  /\ (forall k c, (k, c) ∈ top -> c = mentions_of k items /\ (1 <= c)%nat)
  /\ (forall k, k ∈ items -> k ∉ top.*1 ->
        length top = limit
        /\ forall p, p ∈ top -> (mentions_of k items <= p.2)%nat).
Proof.
  intros top. unfold top, most_common.
  destruct (Counter_counts items) as (ND & Cs & Ks).
  pose proof (sorted_by_count_perm (Counter items)) as Perm.
  pose proof (sorted_by_count_sorted (Counter items)) as Srt.
  destruct (sorted_take_drop _ limit Srt) as [S1 S2].
  set (s := sorted_by_count (Counter items)) in *.
  assert (NDs : NoDup s.*1) by (by rewrite Perm).
  split; [by rewrite length_take, Perm|].
  split.
  { rewrite <- (take_drop limit s), fmap_app in NDs.
    by apply NoDup_app in NDs as [? _]. }
  split; [exact S1|]. split.
  { intros k c Hin. apply Cs. rewrite <- Perm. by apply (subseteq_take limit s). }
  intros k Hk Hout.
  assert (Hs : k ∈ s.*1) by (rewrite Perm; by apply Ks).
  apply list_elem_of_fmap in Hs as ([k' c] & -> & Hs). cbn [fst] in *.
  rewrite <- (take_drop limit s) in Hs.
  apply elem_of_app in Hs as [Hs|Hs].
  { exfalso. apply Hout. apply list_elem_of_fmap. by exists (k', c). }
  assert (Hc : c = mentions_of k' items).
  { apply Cs. rewrite <- Perm. by apply (subseteq_drop limit s). }
  split.
  - rewrite length_take.
    destruct (Nat.le_gt_cases (length s) limit) as [Hle|]; [|lia].
    rewrite drop_ge in Hs by done. by apply elem_of_nil in Hs.
  - intros p Hp. rewrite <- Hc. exact (S2 p (k', c) Hp Hs).
Qed.

Lemma Counter_nonempty (items : list pystr) :
  items <> [] -> Counter items <> [].
Proof.
  destruct items as [|item items]; [done|]. intros _ E.
  destruct (Counter_counts (item :: items)) as (_ & _ & Ks).
  specialize (Ks item (list_elem_of_here _ _)). rewrite E in Ks.
  by apply elem_of_nil in Ks.
Qed.

Lemma mentions_of_frame_tickers (t : pystr)
    (rows : list (option (list pystr))) :
  starts_with country_prefix t = false ->
  mentions_of t (frame_tickers rows) = mentions_of t (all_mentions rows).
Proof.
  intros Ht. unfold mentions_of, frame_tickers, all_mentions.
  induction rows as [|r rows IH]; [done|].
  rewrite !map_cons, !concat_cons, !filter_app, !length_app, IH. f_equal.
  clear IH. destruct r as [l|]; [|done]. cbn [default].
  induction l as [|m l IH]; [done|]. cbn [List.filter].
  rewrite (filter_cons _ m l).
  destruct (decide (m = t)) as [->|Hne].
  - rewrite Ht. cbn [negb]. rewrite filter_cons, decide_True by done.
    cbn [length]. by rewrite IH.
  - destruct (starts_with country_prefix m); cbn [negb]; [done|].
    by rewrite filter_cons, decide_False.
Qed.

Lemma frame_tickers_elem (t : pystr) (rows : list (option (list pystr))) :
  t ∈ frame_tickers rows
  <-> t ∈ all_mentions rows /\ starts_with country_prefix t = false.
Proof.
  unfold frame_tickers, all_mentions.
  induction rows as [|r rows IH].
  - split; [intros H; by apply elem_of_nil in H|].
    intros [H _]. by apply elem_of_nil in H.
  - rewrite !map_cons, !concat_cons, !elem_of_app, IH.
    destruct r as [l|]; cbn [default].
    + rewrite list_elem_of_In, filter_In,
        <- list_elem_of_In, negb_true_iff.
      tauto.
    + rewrite elem_of_nil. tauto.
Qed.

(** X21.  [get_top_tickers_from_df] on the data frame of the report gives
    the most mentioned tickers: at most [limit] pairs of distinct tickers, no
    country among them, each with the number of times it is mentioned in the
    frame, in the order of falling counts; a ticker of the frame that is left
    out is mentioned no more often than any ticker returned, and then
    [limit] tickers are returned. *)
Theorem top_tickers_of_frame (rows : list (option (list pystr)))
    (limit : nat) :
  exists top,
    get_top_tickers_from_df (Frame rows) limit = Some top
    /\ (length top <= limit)%nat
    /\ NoDup top.*1
    /\ StronglySorted falling top
    /\ (forall t c, (t, c) ∈ top ->
          starts_with country_prefix t = false
          /\ c = mentions_of t (all_mentions rows) /\ (1 <= c)%nat)
    /\ (forall t, t ∈ all_mentions rows ->
          starts_with country_prefix t = false -> t ∉ top.*1 ->
          length top = limit
          /\ forall p, p ∈ top ->
               (mentions_of t (all_mentions rows) <= p.2)%nat).
Proof.
  destruct (most_common_top limit (frame_tickers rows))
    as (Len & ND & Srt & Cs & Out).
  exists (most_common limit (Counter (frame_tickers rows))).
  split.
  { destruct rows as [|r rows]; [by destruct limit | done]. }
  split; [lia|]. split; [exact ND|]. split; [exact Srt|]. split.
  - intros t c Hin. destruct (Cs t c Hin) as [-> Hc].
    assert (Ht : t ∈ frame_tickers rows).
    { unfold mentions_of in Hc.
      destruct (filter _ (frame_tickers rows)) as [|x f] eqn:E;
        [simpl in Hc; lia|].
      assert (Hx : x ∈ filter (fun x => x = t) (frame_tickers rows))
        by (rewrite E; by left).
      by apply list_elem_of_filter in Hx as [-> Hx]. }
    apply frame_tickers_elem in Ht as [_ Ht].
    split; [exact Ht|]. split; [|exact Hc].
    by apply mentions_of_frame_tickers.
  - intros t Hin Ht Hout.
    destruct (Out t) as [L Le]; [by apply frame_tickers_elem | done |].
    split; [exact L|]. intros p Hp.
    rewrite <- mentions_of_frame_tickers by done. by apply Le.
Qed.

(** X22.  [get_top_tickers] returns the fixed list of five made-up counts
    whenever it has no tickers to count: when [detailed_posts.json] is
    missing or cannot be read, and when no post carries a ticker.  Its result
    is empty only for a limit of [0]: with the limit of 15 that
    [tickers_command] passes the list is never empty, so the reply of
    [bot.py] for missing ticker data is never sent. *)
Theorem get_top_tickers_placeholder
    (file : option (option (list (option (list pystr))))) (limit : nat) :
  ((forall posts, file = Some (Some posts) -> post_tickers posts = []) ->
   get_top_tickers file limit = placeholder_tickers)
  /\ (get_top_tickers file limit = [] -> limit = 0%nat)
  /\ get_top_tickers file 15 <> [].
Proof.
  assert (N : forall n, get_top_tickers file n = [] -> n = 0%nat).
  { intros n. unfold get_top_tickers.
    destruct file as [[posts|]|]; [|done|done].
    destruct (post_tickers posts) as [|t ts] eqn:E; [done|].
    intros H.
    destruct (most_common_top n (t :: ts)) as (Len & _).
    rewrite H in Len. simpl in Len.
    pose proof (Counter_nonempty (t :: ts)) as Ne.
    destruct (Counter (t :: ts)); [by exfalso; apply Ne|].
    simpl in Len. lia. }
  split; [|split; [apply N|]].
  - intros H. unfold get_top_tickers.
    destruct file as [[posts|]|]; [|done|done].
    by rewrite (H posts eq_refl).
  - intros H. apply N in H. lia.
Qed.
(** ** Witnesses of the further properties *)


Lemma analyze_news_frame_witness :
  api_key (counted Sample.keyed) = api_key Sample.keyed
  /\ folder_id (counted Sample.keyed) = folder_id Sample.keyed
  /\ cloud_id (counted Sample.keyed) = cloud_id Sample.keyed
  /\ cache_enabled (counted Sample.keyed) = cache_enabled Sample.keyed
  /\ (request_count Sample.keyed <= request_count (counted Sample.keyed))%nat
  /\ now Sample.world0 <= now Sample.world0
  /\ slept Sample.world0 `prefix_of` slept Sample.world0
  /\ (false = false \/ cache_enabled Sample.keyed = false ->
      cache (counted Sample.keyed) = cache Sample.keyed
      /\ disk Sample.world0 = disk Sample.world0).
Proof.
  apply (analyze_news_frame Sample.to_lower_full Sample.final_sigma
           Sample.md5_hexdigest Sample.isoformat Sample.json_loads
           (Sample.always Exc_Timeout) 1 Sample.keyed Sample.world0
           (py "text") None false
           (_create_enhanced_fallback Sample.to_lower_full Sample.final_sigma
              Sample.isoformat (now Sample.world0) (py "text") [])).
  vm_compute. reflexivity.
Defined.



Lemma enhanced_fallback_sentiment_witness :
  get_key "sentiment"
    (_create_enhanced_fallback Sample.to_lower_full Sample.final_sigma
       Sample.isoformat 0 (py "Рекордный рост") [])
  = Some (VStr (py "позитивный"))
  /\ get_key "sentiment_score"
       (_create_enhanced_fallback Sample.to_lower_full Sample.final_sigma
          Sample.isoformat 0 (py "Рекордный рост") [])
     = Some (VFloat 0.5%Q).
Proof.
  pose proof (enhanced_fallback_sentiment Sample.to_lower_full
                Sample.final_sigma Sample.isoformat 0 (py "Рекордный рост")
                [] sample_small_cyrillic_fixed) as H.
  cbv zeta in H. destruct H as (_ & _ & _ & H).
  destruct (H (py "рост")) as (A & B & _).
  - vm_compute. repeat constructor.
  - vm_compute. reflexivity.
  - vm_compute. reflexivity.
  - split; [exact A | exact B].
Defined.

Lemma analyze_multiple_news_complete_witness :
  exists results self' w',
    analyze_multiple_news Sample.to_lower_full Sample.final_sigma
      Sample.md5_hexdigest Sample.isoformat Sample.json_loads
      (Sample.always Exc_Timeout) 1 Sample.keyed Sample.world0
      [NewsItem (Some (py "text")) None; NewsItem (Some [0xD800%N]) None;
       NewsItem None (Some [py "SBER"])] 2
    = BatchReturned results self' w'
    /\ map result_news results
       = [NewsItem (Some (py "text")) None; NewsItem (Some [0xD800%N]) None;
          NewsItem None (Some [py "SBER"])]
    /\ Forall (item_recovered Sample.to_lower_full Sample.final_sigma
                 Sample.isoformat Sample.keyed) results.
Proof.
  apply (analyze_multiple_news_complete Sample.to_lower_full
           Sample.final_sigma Sample.md5_hexdigest Sample.isoformat
           Sample.json_loads (Sample.always Exc_Timeout)
           (fun n => eq_refl) 0 Sample.keyed Sample.world0).
  lia.
Defined.

Lemma analyze_multiple_news_keyless_witness :
  analyze_multiple_news Sample.to_lower_full Sample.final_sigma
    Sample.md5_hexdigest Sample.isoformat Sample.json_loads
    Sample.always_429 1 Sample.keyless Sample.world0
    [NewsItem (Some (py "a")) None; NewsItem (Some (py "b")) None;
     NewsItem (Some (py "c")) None; NewsItem None None] 3
  = BatchReturned
      (map basic_item
         [NewsItem (Some (py "a")) None; NewsItem (Some (py "b")) None;
          NewsItem (Some (py "c")) None; NewsItem None None])
      Sample.keyless
      (Nat.iter ((4 - 1) / Z.to_nat 3) (sleep 1) Sample.world0).
Proof.
  apply (analyze_multiple_news_keyless Sample.to_lower_full
           Sample.final_sigma Sample.md5_hexdigest Sample.isoformat
           Sample.json_loads Sample.always_429 0 Sample.keyless
           Sample.world0); [reflexivity | lia].
Defined.

Lemma init_analyzer_needs_credentials_witness :
  init_analyzer Sample.to_lower_full Sample.final_sigma Sample.md5_hexdigest
    Sample.isoformat Sample.json_loads (Sample.always Exc_Timeout) 1
    (Some Sample.keyed) Sample.world0 (Some (py "key")) (Some []) None
    (py "https://llm.api.cloud.yandex.ru")
  = Done false (Some Sample.keyed) Sample.world0.
Proof.
  apply init_analyzer_needs_credentials. right. reflexivity.
Defined.

Lemma init_analyzer_succeeds_witness :
  exists self' w',
    init_analyzer Sample.to_lower_full Sample.final_sigma
      Sample.md5_hexdigest Sample.isoformat Sample.json_loads
      (Sample.always (Response 500 None)) 1 None Sample.world0
      (Some (py "key")) (Some (py "folder")) (Some (py "cloud"))
      (py "https://llm.api.cloud.yandex.ru")
    = Done true (Some self') w'
    /\ api_key self' = Some (py "key")
    /\ folder_id self' = Some (py "folder")
    /\ cloud_id self' = Some (py "https://llm.api.cloud.yandex.ru")
    /\ (request_count self' <= 1)%nat.
Proof.
  apply (init_analyzer_succeeds Sample.to_lower_full Sample.final_sigma
           Sample.md5_hexdigest Sample.isoformat Sample.json_loads
           (Sample.always (Response 500 None)) 0 None Sample.world0);
    reflexivity.
Defined.

Lemma high_risk_is_high_impact_witness :
  get_market_impact Sample.to_lower_full Sample.final_sigma
    SampleReport.sanctions_text 0
  = py "Высокое".
Proof.
  apply (high_risk_is_high_impact Sample.to_lower_full Sample.final_sigma
           Sample.isoformat 0 SampleReport.sanctions_text [] 0).
  vm_compute. reflexivity.
Defined.

Lemma sanctions_never_geopolitics_witness :
  get_main_topic Sample.to_lower_full Sample.final_sigma
    SampleReport.sanctions_text
  <> py "Геополитика"
  /\ get_main_topic Sample.to_lower_full Sample.final_sigma
       SampleReport.sanctions_text
     ∈ [py "Фондовый рынок России"; py "Драгоценные металлы";
        py "Сырьевые рынки"; py "Технологии и инновации"].
Proof.
  apply (sanctions_never_geopolitics Sample.to_lower_full Sample.final_sigma
           SampleReport.sanctions_text).
  vm_compute. reflexivity.
Defined.

Lemma other_label_counts_as_negative_witness :
  analyze_sentiment SampleReport.is_space (Some SampleReport.neutral_model)
    SampleReport.plain_text
  = 0%Q
  /\ enhanced_sentiment_analysis Sample.to_lower_full Sample.final_sigma
       (Some SampleReport.neutral_model) SampleReport.plain_text
     = (- (9 # 10))%Q.
Proof.
  apply (other_label_counts_as_negative Sample.to_lower_full
           Sample.final_sigma SampleReport.is_space
           SampleReport.neutral_model SampleReport.plain_text "NEUTRAL"
           (9 # 10)).
  - vm_compute. reflexivity.
  - reflexivity.
  - discriminate.
  - discriminate.
  - vm_compute. reflexivity.
Defined.
